(** * swagger-smoke: the test-case derivation and execution engine

    A shallow embedding of the [SwaggerSmoke] class.  Two variants of the
    class are embedded: the one that plans a test case per declared
    response ([Module Smoke], from the source file with [_testCase] and
    [_getGetMethodTestCases]) and the earlier one of [lib/index.js] that
    tests one success response per method ([Module LibIndex]).

    JavaScript values are an inductive type, objects and [Map]s are
    association lists in enumeration order (order matters: the first
    registered security handler, the first declared requirement, the
    order of [Object.getOwnPropertyNames]).  Exceptions and rejected
    promises are the [Throw] case of [Result]; the engine's mutable fields
    are threaded as explicit state, and with them the module-level
    [_globalReject] and the console.  The external collaborators
    (json-schema-faker, z-schema, supertest, jsonpath, lodash.set, the
    user's handlers) are the fields of the class [External] or plain
    functions stored in the engine.  The [unhandledRejection] listener
    that the module installs when it is loaded acts only on a rejection
    nobody handles, outside the calls followed here, and is not part of
    the embedding. *)

From Stdlib Require Import ZArith List String Ascii Bool Lia.
From Stdlib Require Import DecimalString.
Import ListNotations.

Set Warnings "-register-all".

Local Open Scope list_scope.
Local Open Scope string_scope.
Local Open Scope Z_scope.

(** ** JavaScript values and the builtins the engine uses *)

Module Js.

Inductive Value : Type :=
| VUndefined
| VNull
| VBool (b : bool)
| VNum (n : Z)
| VStr (s : string)
| VArr (xs : list Value)
| VObj (kvs : list (string * Value)).

(** What is thrown, or what a promise is rejected with: a [TypeError] of
    the runtime (a property read on [undefined], a call of something that
    is not a function), or an [Error] made by [new Error(msg)] in the
    engine, in a handler or in a collaborator. *)
Inductive Exn : Type :=
| TypeError (msg : string)
| Error (msg : string).

Inductive Result (A : Type) : Type :=
| Ok (a : A)
| Throw (e : Exn).
Arguments Ok {A} a.
Arguments Throw {A} e.

Definition bind {A B} (r : Result A) (k : A -> Result B) : Result B :=
  match r with
  | Ok a => k a
  | Throw e => Throw e
  end.

(** [truthy v]: the value counts as true in a condition. *)
Definition truthy (v : Value) : bool :=
  match v with
  | VUndefined | VNull => false
  | VBool b => b
  | VNum n => negb (n =? 0)
  | VStr s => negb (s =? "")%string
  | VArr _ | VObj _ => true
  end.

(** [lodash.isObject]: true of every non-primitive value. *)
Definition lodash_isObject (v : Value) : bool :=
  match v with
  | VArr _ | VObj _ => true
  | _ => false
  end.

Definition lodash_isString (v : Value) : bool :=
  match v with
  | VStr _ => true
  | _ => false
  end.

Definition lodash_isArray (v : Value) : bool :=
  match v with
  | VArr _ => true
  | _ => false
  end.

(** *** Numbers and strings *)

(** [Number.prototype.toString] on an integer. *)
Definition Number_toString (n : Z) : string :=
  NilZero.string_of_int (Z.to_int n).

Definition is_space (c : ascii) : bool :=
  let n := nat_of_ascii c in
  (Nat.eqb n 32 || (Nat.leb 9 n && Nat.leb n 13))%bool.

Fixpoint skip_spaces (s : string) : string :=
  match s with
  | String c r => if is_space c then skip_spaces r else s
  | EmptyString => s
  end.

Definition digit_value (c : ascii) : option Z :=
  let n := Z.of_nat (nat_of_ascii c) in
  if (48 <=? n) && (n <=? 57) then Some (n - 48)
  else if (97 <=? n) && (n <=? 122) then Some (n - 87)
  else if (65 <=? n) && (n <=? 90) then Some (n - 55)
  else None.

(** The longest prefix of digits of the radix; [None] when there is none. *)
Fixpoint parse_digits (radix : Z) (acc : option Z) (s : string) : option Z :=
  match s with
  | String c r =>
      match digit_value c with
      | Some d =>
          if d <? radix
          then parse_digits radix
                 (Some (radix * match acc with Some a => a | None => 0 end + d)) r
          else acc
      | None => acc
      end
  | EmptyString => acc
  end.

(** [parseInt(s)] with no radix argument; [None] is NaN. *)
Definition parseInt (s : string) : option Z :=
  let s := skip_spaces s in
  let '(neg, s) :=
    match s with
    | String c r =>
        if (c =? "-")%char then (true, r)
        else if (c =? "+")%char then (false, r)
        else (false, s)
    | EmptyString => (false, s)
    end in
  let '(radix, s) :=
    match s with
    | String c0 (String c1 r) =>
        if ((c0 =? "0")%char && ((c1 =? "x")%char || (c1 =? "X")%char))%bool
        then (16, r) else (10, s)
    | _ => (10, s)
    end in
  match parse_digits radix None s with
  | Some n => Some (if neg then - n else n)
  | None => None
  end.

(** The numbers of a list in which some entries are NaN. *)
Definition filter_map_numbers (xs : list (option Z)) : list Z :=
  flat_map (fun x => match x with Some n => [n] | None => [] end) xs.

(** [a < b] on numbers where [a] may be NaN: a comparison with NaN is false. *)
Definition lt_number (a : option Z) (b : Z) : bool :=
  match a with
  | Some n => n <? b
  | None => false
  end.

Definition toUpperCase_char (c : ascii) : ascii :=
  let n := nat_of_ascii c in
  if (Nat.leb 97 n && Nat.leb n 122)%bool then ascii_of_nat (n - 32) else c.

Fixpoint toUpperCase (s : string) : string :=
  match s with
  | String c r => String (toUpperCase_char c) (toUpperCase r)
  | EmptyString => EmptyString
  end.

Fixpoint strip_prefix (p s : string) : option string :=
  match p with
  | EmptyString => Some s
  | String a p' =>
      match s with
      | String b s' => if (a =? b)%char then strip_prefix p' s' else None
      | EmptyString => None
      end
  end.

(** The text before and after the first occurrence of [p] in [s]. *)
Fixpoint split_at (p s : string) : option (string * string) :=
  match strip_prefix p s with
  | Some rest => Some (EmptyString, rest)
  | None =>
      match s with
      | String c s' =>
          match split_at p s' with
          | Some (b, a) => Some (String c b, a)
          | None => None
          end
      | EmptyString => None
      end
  end.

Definition includes (s p : string) : bool :=
  match split_at p s with
  | Some _ => true
  | None => false
  end.

(** The replacement text of [String.prototype.replace] for a string
    pattern: [$$], [$&], [$`] and [$'] are expanded, everything else is
    literal. *)
Fixpoint getSubstitution (matched before after repl : string) : string :=
  match repl with
  | String c r =>
      if (c =? "$")%char then
        match r with
        | String d r' =>
            if (d =? "$")%char then String "$" (getSubstitution matched before after r')
            else if (d =? "&")%char then matched ++ getSubstitution matched before after r'
            else if (d =? "`")%char then before ++ getSubstitution matched before after r'
            else if (d =? "'")%char then after ++ getSubstitution matched before after r'
            else String c (getSubstitution matched before after r)
        | EmptyString => String c EmptyString
        end
      else String c (getSubstitution matched before after r)
  | EmptyString => EmptyString
  end.


(** [s.replace(p, r)] with a string pattern: the first occurrence only. *)
Definition String_replace (s p r : string) : string :=
  match split_at p s with
  | Some (b, a) => b ++ getSubstitution p b a r ++ a
  | None => s
  end.

(** [s.substring(n)]. *)
Fixpoint substring_from (n : nat) (s : string) : string :=
  match n, s with
  | S n', String _ r => substring_from n' r
  | _, _ => s
  end.

Fixpoint join (sep : string) (xs : list string) : string :=
  match xs with
  | [] => EmptyString
  | [x] => x
  | x :: rest => x ++ sep ++ join sep rest
  end.

(** String conversion, as a template literal or [replace] applies it. *)
Fixpoint toString (v : Value) : string :=
  match v with
  | VUndefined => "undefined"
  | VNull => "null"
  | VBool b => if b then "true" else "false"
  | VNum n => Number_toString n
  | VStr s => s
  | VArr xs =>
      join ","
        (map (fun x => match x with
                       | VUndefined | VNull => EmptyString
                       | _ => toString x
                       end) xs)
  | VObj _ => "[object Object]"
  end.

(** *** Objects and Maps as association lists in enumeration order

    A list holds the properties of an object in the order in which
    JavaScript enumerates them (for the responses of a method: the
    status codes in ascending order, since keys that are array indices
    come first).  The keys the engine itself adds to an object
    ([required], [Authorization], [Content-Type]) are not indices and go
    last. *)

Section Assoc.
Context {A : Type}.

Fixpoint lookup (k : string) (kvs : list (string * A)) : option A :=
  match kvs with
  | [] => None
  | (k', v) :: rest => if (k =? k')%string then Some v else lookup k rest
  end.

Definition has (k : string) (kvs : list (string * A)) : bool :=
  match lookup k kvs with
  | Some _ => true
  | None => false
  end.

(** Assignment [o[k] = v] and [Map.prototype.set]: an existing key keeps
    its place, a new key goes last. *)
Fixpoint assoc_set (k : string) (v : A) (kvs : list (string * A))
  : list (string * A) :=
  match kvs with
  | [] => [(k, v)]
  | (k', v') :: rest =>
      if (k =? k')%string then (k, v) :: rest
      else (k', v') :: assoc_set k v rest
  end.

Definition keys (kvs : list (string * A)) : list string := map fst kvs.

(** A member of an object changed where it is, [o[k]] becoming [f(o[k])];
    nothing is done when there is no such member. *)
Fixpoint assoc_update (k : string) (f : A -> A) (kvs : list (string * A))
  : list (string * A) :=
  match kvs with
  | [] => []
  | (k', v) :: rest =>
      if (k =? k')%string then (k', f v) :: rest
      else (k', v) :: assoc_update k f rest
  end.
End Assoc.

(** [Object.getOwnPropertyNames]. *)
Definition getOwnPropertyNames {A} (o : list (string * A)) : list string := keys o.

(** The own enumerable properties of a value, as [Object.assign] and
    [lodash.forIn] see them: an array has its indices. *)
Fixpoint index_from (i : Z) (xs : list Value) : list (string * Value) :=
  match xs with
  | [] => []
  | x :: rest => (Number_toString i, x) :: index_from (i + 1) rest
  end.

Definition own_enumerable (v : Value) : list (string * Value) :=
  match v with
  | VObj kvs => kvs
  | VArr xs => index_from 0 xs
  | _ => []
  end.

(** [Object.getOwnPropertyNames(v)] on a value that is not null or
    undefined: an array and a string also own [length]. *)
Fixpoint char_indices (i : Z) (s : string) : list string :=
  match s with
  | String _ r => Number_toString i :: char_indices (i + 1) r
  | EmptyString => []
  end.

Definition Object_getOwnPropertyNames (v : Value) : list string :=
  match v with
  | VObj kvs => keys kvs
  | VArr xs => keys (index_from 0 xs) ++ ["length"]
  | VStr s => char_indices 0 s ++ ["length"]
  | _ => []
  end.

(** [Object.assign(target, source)]. *)
Definition Object_assign (target source : list (string * Value))
  : list (string * Value) :=
  fold_left (fun acc kv => assoc_set (fst kv) (snd kv) acc) source target.

(** Property read [v.k] on a value that is known not to be null or
    undefined; a missing property reads as [undefined]. *)
Definition get_prop (v : Value) (k : string) : Value :=
  match lookup k (own_enumerable v) with
  | Some x => x
  | None => VUndefined
  end.

End Js.

(** ** The engine's data: contract, registry, options, state *)

Module Engine.
Import Js.

(** A parameter or security handler, called with positional arguments;
    it may throw, or return a promise that rejects.  A handler is taken
    as a function of its arguments. *)
Definition Handler : Type := list Value -> Result Value.

Record ParamSpec : Type := {
  param_name : string;
  param_in : string;
  param_type : Value;          (* a string, or [VUndefined] when not declared *)
  param_schema : Value
}.

Record ResponseSpec : Type := {
  schema : Value               (* [VUndefined] when the response has no schema *)
}.

(** A security requirement object: scheme name to scopes. *)
Definition SecurityRequirement : Type := list (string * Value).

Record MethodMeta : Type := {
  parameters : option (list ParamSpec);
  responses : list (string * ResponseSpec);   (* in own-property order *)
  security : option (list SecurityRequirement);
  consumes : option (list string)
}.

Record ApiDefinitions : Type := {
  basePath : Value;
  paths : list (string * list (string * MethodMeta))
}.

Record Options : Type := {
  disable : option (list string);
  forceAuthorizationHeader : bool;
  notRequiredPropertiesValidation : bool;
  setParamsInBody : bool;
  successHttpCode : option Z;
  successCases : bool
}.

(** One line of console output, by colour. *)
Inductive LogLine : Type :=
| gray (text : string)
| green (text : string)
| red (text : string)
| yellow (text : string).

(** The fields of a [SwaggerSmoke] instance, and with them what the run
    changes outside the instance: the module-level variable
    [_globalReject] ([true] once a function is assigned to it), and the
    console as the log of what was printed. *)
Record SwaggerSmoke : Type := {
  _basePath : Value;
  _security : list (string * Handler);        (* a Map, in insertion order *)
  _requestParams : list (string * Handler);   (* a Map, in insertion order *)
  _staticParams : option (list (string * Value));
  _testFails : Z;
  _testPasses : Z;
  _apiDefinitions : ApiDefinitions;
  options : Options;
  _securityKeys : list string;
  _requestParamsKeys : list string;
  _globalReject : bool;
  console : list LogLine
}.

Record TestCase : Type := {
  code : Z;
  metadata : option ResponseSpec
}.

Record Tally : Type := {
  fails : Z;
  passes : Z
}.

Record Request : Type := {
  req_url : string;
  req_headers : list (string * Value);
  req_body : Value
}.

(** What the application under test does with a request: it answers, or
    the transport fails. *)
Inductive Outcome : Type :=
| Responded (status : Z) (body : Value)
| TransportError (msg : string).

(** The types json-schema-faker has a generator for. *)
Definition fakeGenerator_types : list string :=
  ["array"; "boolean"; "integer"; "null"; "number"; "object"; "string"].

(** The collaborators outside the engine, each as a function of what it
    is given. *)
Class External : Type := {
  (* json-schema-faker: the promise of [fakeGenerator.resolve(schema)] is
     rejected with an error on the schemas of [fakeGenerator_rejects]
     (as configured: a type it has no generator for, a reference it
     cannot follow), and resolved with the value of
     [fakeGenerator_resolve] on the others *)
  fakeGenerator_resolve : Value -> Value;
  fakeGenerator_rejects : Value -> option Exn;
  (* z-schema: [validate(body, schema)] and the errors of [lastReport],
     each already in JSON *)
  schemaValidator_validate : Value -> Value -> bool;
  schemaValidator_errors : Value -> Value -> list string;
  (* supertest: [this._api[method]], [None] when the agent has no such
     method; the function is the request sent *)
  api : string -> option (Request -> Outcome);
  (* jsonpath and lodash.set *)
  jsonPath_paths : Value -> string -> list Value;
  jsonPath_stringify : Value -> string;
  lodash_set : Value -> string -> Value -> Value;
  (* json-schema-faker generates for a schema that is only one of its
     own types *)
  fakeGenerator_knows :
    forall t,
      existsb (String.eqb t) fakeGenerator_types = true ->
      fakeGenerator_rejects (VObj [("type", VStr t)]) = None
}.

(** [fakeGenerator.resolve(schema)], awaited. *)
Definition fakeGenerator_resolved {E : External} (schema : Value)
  : Result Value :=
  match fakeGenerator_rejects schema with
  | Some e => Throw e
  | None => Ok (fakeGenerator_resolve schema)
  end.

(** State updates. *)
Definition with_run (fs ps : Z) (out : list LogLine) (s : SwaggerSmoke)
  : SwaggerSmoke :=
  {| _basePath := _basePath s;
     _security := _security s;
     _requestParams := _requestParams s;
     _staticParams := _staticParams s;
     _testFails := fs;
     _testPasses := ps;
     _apiDefinitions := _apiDefinitions s;
     options := options s;
     _securityKeys := _securityKeys s;
     _requestParamsKeys := _requestParamsKeys s;
     _globalReject := _globalReject s;
     console := out |}.

Definition console_log (l : LogLine) (s : SwaggerSmoke) : SwaggerSmoke :=
  with_run (_testFails s) (_testPasses s) (console s ++ [l]) s.

Definition incr_testFails (s : SwaggerSmoke) : SwaggerSmoke :=
  with_run (_testFails s + 1) (_testPasses s) (console s) s.

Definition incr_testPasses (s : SwaggerSmoke) : SwaggerSmoke :=
  with_run (_testFails s) (_testPasses s + 1) (console s) s.

Definition with_keys (sk pk : list string) (s : SwaggerSmoke) : SwaggerSmoke :=
  {| _basePath := _basePath s;
     _security := _security s;
     _requestParams := _requestParams s;
     _staticParams := _staticParams s;
     _testFails := _testFails s;
     _testPasses := _testPasses s;
     _apiDefinitions := _apiDefinitions s;
     options := options s;
     _securityKeys := sk;
     _requestParamsKeys := pk;
     _globalReject := _globalReject s;
     console := console s |}.

(** The contract of the instance after a write into one of its
    objects. *)
Definition with_apiDefinitions (d : ApiDefinitions) (s : SwaggerSmoke)
  : SwaggerSmoke :=
  {| _basePath := _basePath s;
     _security := _security s;
     _requestParams := _requestParams s;
     _staticParams := _staticParams s;
     _testFails := _testFails s;
     _testPasses := _testPasses s;
     _apiDefinitions := d;
     options := options s;
     _securityKeys := _securityKeys s;
     _requestParamsKeys := _requestParamsKeys s;
     _globalReject := _globalReject s;
     console := console s |}.

(** The first two lines of [runTests]: the names of the registered
    handlers are copied. *)
Definition snapshot_keys (s : SwaggerSmoke) : SwaggerSmoke :=
  with_keys (keys (_security s)) (keys (_requestParams s)) s.

(** [_globalReject = reject], in the executor of the promise of a test
    case. *)
Definition assign_globalReject (s : SwaggerSmoke) : SwaggerSmoke :=
  {| _basePath := _basePath s;
     _security := _security s;
     _requestParams := _requestParams s;
     _staticParams := _staticParams s;
     _testFails := _testFails s;
     _testPasses := _testPasses s;
     _apiDefinitions := _apiDefinitions s;
     options := options s;
     _securityKeys := _securityKeys s;
     _requestParamsKeys := _requestParamsKeys s;
     _globalReject := true;
     console := console s |}.

(** [process.on('uncaughtException', listener)], given whether the
    listener is a function: the event emitter of Node throws a
    [TypeError] for a listener that is not one. *)
Definition process_on_uncaughtException (listener_is_function : bool)
  : Result unit :=
  if listener_is_function then Ok tt
  else Throw (TypeError "The listener argument must be of type function").

(** The constructor, in a module that has just been loaded:
    [_globalReject] is declared and not assigned. *)
Definition new_SwaggerSmoke (apiDefinitions : ApiDefinitions) (opts : Options)
  : SwaggerSmoke :=
  {| _basePath := basePath apiDefinitions;
     _security := [];
     _requestParams := [];
     _staticParams := None;
     _testFails := 0;
     _testPasses := 0;
     _apiDefinitions := apiDefinitions;
     options := opts;
     _securityKeys := [];
     _requestParamsKeys := [];
     _globalReject := false;
     console := [] |}.

(** [security(key, handler)]. *)
Definition SwaggerSmoke_security (key : string) (handler : Handler)
  (s : SwaggerSmoke) : SwaggerSmoke :=
  {| _basePath := _basePath s;
     _security := assoc_set key handler (_security s);
     _requestParams := _requestParams s;
     _staticParams := _staticParams s;
     _testFails := _testFails s;
     _testPasses := _testPasses s;
     _apiDefinitions := _apiDefinitions s;
     options := options s;
     _securityKeys := _securityKeys s;
     _requestParamsKeys := _requestParamsKeys s;
     _globalReject := _globalReject s;
     console := console s |}.

(** [params(key, handler)] with a handler, and [params(dictionary)]
    without one. *)
Definition SwaggerSmoke_params (key : string) (handler : Handler)
  (s : SwaggerSmoke) : SwaggerSmoke :=
  {| _basePath := _basePath s;
     _security := _security s;
     _requestParams := assoc_set key handler (_requestParams s);
     _staticParams := _staticParams s;
     _testFails := _testFails s;
     _testPasses := _testPasses s;
     _apiDefinitions := _apiDefinitions s;
     options := options s;
     _securityKeys := _securityKeys s;
     _requestParamsKeys := _requestParamsKeys s;
     _globalReject := _globalReject s;
     console := console s |}.

Definition SwaggerSmoke_params_static (dictionary : list (string * Value))
  (s : SwaggerSmoke) : SwaggerSmoke :=
  {| _basePath := _basePath s;
     _security := _security s;
     _requestParams := _requestParams s;
     _staticParams := Some dictionary;
     _testFails := _testFails s;
     _testPasses := _testPasses s;
     _apiDefinitions := _apiDefinitions s;
     options := options s;
     _securityKeys := _securityKeys s;
     _requestParamsKeys := _requestParamsKeys s;
     _globalReject := _globalReject s;
     console := console s |}.

(** *** Asynchronous methods that update the instance

    An [async] method is a function of the state that returns a result or
    a rejection together with the state it leaves behind. *)
Definition M (A : Type) : Type := SwaggerSmoke -> Result A * SwaggerSmoke.

Definition ret {A} (a : A) : M A := fun s => (Ok a, s).

Definition throw {A} (e : Exn) : M A := fun s => (Throw e, s).

Definition bindM {A B} (m : M A) (k : A -> M B) : M B :=
  fun s =>
    match m s with
    | (Ok a, s') => k a s'
    | (Throw e, s') => (Throw e, s')
    end.

(** A computation that only reads the instance. *)
Definition read {A} (f : SwaggerSmoke -> Result A) : M A := fun s => (f s, s).

(** Reading a field. *)
Definition gets {A} (f : SwaggerSmoke -> A) : M A := fun s => (Ok (f s), s).

Definition update (f : SwaggerSmoke -> SwaggerSmoke) : M unit :=
  fun s => (Ok tt, f s).

(** [for (const x of xs) { await body(x); }] *)
Fixpoint for_of {A} (xs : list A) (body : A -> M unit) : M unit :=
  match xs with
  | [] => ret tt
  | x :: rest => bindM (body x) (fun _ => for_of rest body)
  end.

(** [this.options.disable && this.options.disable.includes(`${method}:${template}`)] *)
Definition disabled (s : SwaggerSmoke) (method template : string) : bool :=
  match disable (options s) with
  | Some l => existsb (String.eqb (method ++ ":" ++ template)) l
  | None => false
  end.

(** [.expect(code)] of supertest on the outcome of the request: the
    promise resolves with the response when the status is the expected
    one and rejects otherwise.  With [undefined] for the code supertest
    compares the response text with [undefined], which fails for a
    response that has a text. *)
Definition supertest_expect (expected : option Z) (o : Outcome)
  : Result (Z * Value) :=
  match o with
  | Responded status body =>
      match expected with
      | Some c =>
          if status =? c then Ok (status, body)
          else Throw (Error ("expected " ++ Number_toString c ++ ", got "
                             ++ Number_toString status))
      | None => Throw (Error "expected undefined response body")
      end
  | TransportError msg => Throw (Error msg)
  end.

(** *** Two states that differ in the counters only

    [shifted df dp s1 s2]: [s2] is [s1] with [df] more fails and [dp] more
    passes (and whatever console).  A computation is [counter_blind] when
    it gives the same result and keeps the difference on two such states;
    [offset_tally] adds the difference to a returned tally. *)
Definition shifted (df dp : Z) (s1 s2 : SwaggerSmoke) : Prop :=
  exists out,
    s2 = with_run (_testFails s1 + df) (_testPasses s1 + dp) out s1.

Definition counter_blind {A} (m : M A) : Prop :=
  forall df dp s1 s2,
    shifted df dp s1 s2 ->
    fst (m s2) = fst (m s1) /\ shifted df dp (snd (m s1)) (snd (m s2)).

Definition offset_tally (df dp : Z) (r : Result Tally) : Result Tally :=
  match r with
  | Ok t => Ok {| fails := fails t + df; passes := passes t + dp |}
  | Throw e => Throw e
  end.

Definition tally_offset (m : M Tally) : Prop :=
  forall df dp s1 s2,
    shifted df dp s1 s2 -> fst (m s2) = offset_tally df dp (fst (m s1)).

(** The text of an error in a template literal. *)
Definition Exn_toString (e : Exn) : string :=
  match e with
  | TypeError msg => "TypeError: " ++ msg
  | Error msg => "Error: " ++ msg
  end.

(** *** The console against the counters

    [reds] and [greens] count the lines of a colour.  [ledger s s']: from
    [s] to [s'] the console has only grown, the counters have grown by
    the red and the green lines added, and the registry, the options and
    the contract are the same.  [tracks m]: the computation [m] keeps
    the ledger from whatever state it starts. *)
Definition is_red (l : LogLine) : bool :=
  match l with
  | red _ => true
  | _ => false
  end.

Definition is_green (l : LogLine) : bool :=
  match l with
  | green _ => true
  | _ => false
  end.

Definition reds (out : list LogLine) : Z :=
  Z.of_nat (List.length (filter is_red out)).

Definition greens (out : list LogLine) : Z :=
  Z.of_nat (List.length (filter is_green out)).

Definition ledger (s s' : SwaggerSmoke) : Prop :=
  exists more,
    console s' = (console s ++ more)%list
    /\ _testFails s' = _testFails s + reds more
    /\ _testPasses s' = _testPasses s + greens more
    /\ _security s' = _security s
    /\ _requestParams s' = _requestParams s
    /\ _staticParams s' = _staticParams s
    /\ options s' = options s
    /\ _apiDefinitions s' = _apiDefinitions s
    /\ _basePath s' = _basePath s.

Definition tracks {A} (m : M A) : Prop :=
  forall s, ledger s (snd (m s)).





(** *** A process in which [_globalReject] is not assigned

    [idle s s']: from [s] to [s'] no verdict was given (the counters are
    the same and no red or green line was printed) and [_globalReject]
    is not assigned in [s'].  [stays_idle m]: the computation [m], started
    where [_globalReject] is not assigned, gives no verdict and leaves it
    unassigned. *)
Definition idle (s s' : SwaggerSmoke) : Prop :=
  _globalReject s' = false
  /\ _testFails s' = _testFails s
  /\ _testPasses s' = _testPasses s
  /\ reds (console s') = reds (console s)
  /\ greens (console s') = greens (console s).

Definition stays_idle {A} (m : M A) : Prop :=
  forall s, _globalReject s = false -> idle s (snd (m s)).

(** What the factory [contractValidator] reads of its [options] argument
    besides the options of the engine. *)
Record ValidatorOptions : Type := {
  swaggerFilePath : Value;
  jsonSchemaFaker : option (Value * Value);   (* its [options] and [format] *)
  bodyFakeOptions : Value;
  engine_options : Options
}.

End Engine.

(** ** The engine that plans one test case per declared response *)

Module Smoke.
Import Js Engine.

Definition DEFAULT_SUCCESS_CODE : Z := 200.

Section WithExternal.
Context {E : External}.

(** [_call(fn, params)]: the handler applied to the arguments, awaited. *)
Definition _call (fn : Handler) (params : list Value) : Result Value :=
  fn params.

(** The arrow function inside [_generateErrorParam]: the mismatched type
    for a declared one. *)
Definition mismatched_type (type : Value) : Value :=
  match type with
  | VStr t =>
      if ((t =? "integer") || (t =? "number") || (t =? "boolean")
          || (t =? "array") || (t =? "object"))%string
      then VStr "string"
      else if (t =? "string")%string then VStr "integer"
      else VStr "string"
  | _ => VStr "string"
  end.

(** [_generateErrorParam(type, statusCode)]: the promise of the
    generator, or [undefined]; the caller awaits it. *)
Definition _generateErrorParam (type : Value) (statusCode : Z)
  : Result Value :=
  if truthy type then
    let type := if statusCode =? 400 then mismatched_type type else type in
    fakeGenerator_resolved (VObj [("type", type)])
  else Ok VUndefined.

(** [getParamValue(key, type, statusCode, ...args)] *)
Definition getParamValue (s : SwaggerSmoke) (key : string) (type : Value)
  (statusCode : Z) (args : list Value) : Result Value :=
  match lookup key (_requestParams s) with
  | Some entry => _call entry args
  | None =>
      match
        match _staticParams s with
        | Some dictionary => lookup key dictionary
        | None => None
        end
      with
      | Some v => Ok v
      | None =>
          if truthy type then _generateErrorParam type statusCode
          else Ok VUndefined
      end
  end.

(** The loop of [_buildUrl] over the declared parameters; [template] is
    reassigned as the loop goes. *)
Fixpoint _buildUrl_params (s : SwaggerSmoke) (template method : string)
  (params : list ParamSpec) (testCaseStatusCode : Z) : Result string :=
  match params with
  | [] => Ok template
  | param :: rest =>
      if (param_in param =? "body")%string
      then _buildUrl_params s template method rest testCaseStatusCode
      else
        bind (getParamValue s (param_name param) (param_type param)
                testCaseStatusCode [VStr template; VStr method])
          (fun paramValue =>
             if (param_in param =? "path")%string then
               _buildUrl_params s
                 (String_replace template ("{" ++ param_name param ++ "}")
                    (toString paramValue))
                 method rest testCaseStatusCode
             else if (param_in param =? "query")%string then
               _buildUrl_params s
                 (template ++ (if includes template "?" then "&" else "?")
                  ++ param_name param ++ "=" ++ toString paramValue)
                 method rest testCaseStatusCode
             else _buildUrl_params s template method rest testCaseStatusCode)
  end.

Definition _buildUrl (s : SwaggerSmoke) (template method : string)
  (params : option (list ParamSpec)) (testCaseStatusCode : Z) : Result string :=
  match params with
  | Some ps => _buildUrl_params s template method ps testCaseStatusCode
  | None => Ok template
  end.

Definition setObjectParamValue (s : SwaggerSmoke) (object : Value)
  (key template : string) (testCaseStatusCode : Z) : Result Value :=
  let paramMatches := jsonPath_paths object ("$.." ++ key) in
  match paramMatches with
  | [] => Ok object
  | _ :: _ =>
      bind (getParamValue s key VNull testCaseStatusCode
              [VStr template; VBool true])
        (fun paramValue =>
           Ok (fold_left
                 (fun object paramMatch =>
                    lodash_set object
                      (substring_from 2 (jsonPath_stringify paramMatch))
                      paramValue)
                 paramMatches object))
  end.

(** [lodash.union]: the values of both lists, each once, in order. *)
Fixpoint lodash_uniq (seen xs : list string) : list string :=
  match xs with
  | [] => []
  | x :: rest =>
      if existsb (String.eqb x) seen then lodash_uniq seen rest
      else x :: lodash_uniq (x :: seen) rest
  end.

Definition lodash_union (a b : list string) : list string :=
  lodash_uniq [] (a ++ b).

Fixpoint setObjectParamValues (s : SwaggerSmoke) (fakeData : Value)
  (paramsKeys : list string) (template : string) (testCaseStatusCode : Z)
  : Result Value :=
  match paramsKeys with
  | [] => Ok fakeData
  | paramKey :: rest =>
      bind (setObjectParamValue s fakeData paramKey template testCaseStatusCode)
        (fun fakeData =>
           setObjectParamValues s fakeData rest template testCaseStatusCode)
  end.

Definition _buildRequestBody (s : SwaggerSmoke) (template : string)
  (params : option (list ParamSpec)) (testCaseStatusCode : Z) : Result Value :=
  match params with
  | None => Ok VUndefined
  | Some ps =>
      match find (fun param => (param_in param =? "body")%string) ps with
      | Some bodyParam =>
          bind (fakeGenerator_resolved (param_schema bodyParam))
            (fun fakeData =>
               if setParamsInBody (options s) then
                 match _staticParams s with
                 | Some dictionary =>
                     setObjectParamValues s fakeData
                       (lodash_union (getOwnPropertyNames dictionary)
                          (_requestParamsKeys s))
                       template testCaseStatusCode
                 | None =>
                     (* Object.getOwnPropertyNames(undefined) *)
                     Throw (TypeError
                              "Cannot convert undefined or null to object")
                 end
               else Ok fakeData)
      | None => Ok VUndefined
      end
  end.

Definition _setContentType (m : MethodMeta) (headers : list (string * Value))
  : list (string * Value) :=
  let contentType :=
    match consumes m with
    | Some (c :: _) => VStr c
    | Some [] => VUndefined
    | None => VStr "application/json"
    end in
  assoc_set "Content-Type" contentType headers.

(** The first part of [_setSecurityHeader]: which middleware is called,
    and with which scheme metadata.  [None] is the early [return headers];
    a middleware of [None] is [undefined]. *)
Definition select_middleware (s : SwaggerSmoke)
  (securityMetadataCollection : option (list SecurityRequirement))
  : option (option Handler * Value) :=
  match securityMetadataCollection with
  | Some (securityMetadata :: _) =>
      let securityMiddlewareKey :=
        find (fun middlewareKey => has middlewareKey securityMetadata)
          (_securityKeys s) in
      match securityMiddlewareKey with
      | Some k =>
          Some (lookup k (_security s),
                match lookup k securityMetadata with
                | Some v => v
                | None => VUndefined
                end)
      | None =>
          (* Map.get(undefined), and the property named "undefined" *)
          Some (None,
                match lookup "undefined" securityMetadata with
                | Some v => v
                | None => VUndefined
                end)
      end
  | _ =>
      if negb (forceAuthorizationHeader (options s)) then None
      else Some (hd_error (map snd (_security s)), VNull)
  end.

(** The last part of [_setSecurityHeader]: what the handler returned, put
    into the headers. *)
Definition apply_securityHeader (headers : list (string * Value))
  (securityHeader : Value) : Result (list (string * Value)) :=
  if lodash_isObject securityHeader then
    Ok (Object_assign headers (own_enumerable securityHeader))
  else if lodash_isString securityHeader then
    Ok (assoc_set "Authorization" securityHeader headers)
  else
    Throw (Error "Security middleware returned not supported value").

Definition _setSecurityHeader (s : SwaggerSmoke)
  (securityMetadataCollection : option (list SecurityRequirement))
  (headers : list (string * Value)) (path method : string)
  (caseStatusCode : Z) : Result (list (string * Value)) :=
  match _security s with
  | [] => Ok headers
  | _ :: _ =>
      match select_middleware s securityMetadataCollection with
      | None => Ok headers
      | Some (None, _) =>
          Throw (TypeError "Cannot read property 'handler' of undefined")
      | Some (Some middleware, metadata) =>
          bind (_call middleware
                  [metadata; VStr path; VStr method; VNum caseStatusCode])
            (apply_securityHeader headers)
      end
  end.

Definition _getRequestHeaders (s : SwaggerSmoke) (m : MethodMeta)
  (template method : string) (caseStatusCode : Z)
  : Result (list (string * Value)) :=
  bind (_setSecurityHeader s (security m) [] template method caseStatusCode)
    (fun headers => Ok (_setContentType m headers)).

End WithExternal.

(** [_forceSchemaPropertiesAsRequired(schema)], as the value the schema
    has after the call (the source rewrites the object in place; values
    are trees here, so an object that the contract holds at two places
    is rewritten where it is visited).  The
    callback of [forIn] visits a member [val] under its name [key]: the
    elements of an array that are objects are rewritten; the second test
    of the callback is on [key], the member's name, which is a string.
    The assignment of [required] is written after the traversal here so
    that the recursion is structural; lemma
    [_forceSchemaPropertiesAsRequired_eq] shows that the function satisfies
    the source's equation, with the assignment first. *)
Fixpoint _forceSchemaPropertiesAsRequired (schema : Value) : Value :=
  let visit (key : string) (val : Value) : Value :=
    match val with
    | VArr els =>
        VArr (map (fun el =>
                     if lodash_isObject el
                     then _forceSchemaPropertiesAsRequired el
                     else el) els)
    | _ =>
        if lodash_isObject (VStr key)
        then _forceSchemaPropertiesAsRequired val
        else val
    end in
  match schema with
  | VObj kvs =>
      let visited := map (fun kv => match kv with
                                    | (key, val) => (key, visit key val)
                                    end) kvs in
      VObj (if truthy (get_prop schema "properties")
            then assoc_set "required"
                   (VArr (map VStr (Object_getOwnPropertyNames
                                      (get_prop schema "properties"))))
                   visited
            else visited)
  | VArr els =>
      VArr ((fix members (i : Z) (els : list Value) : list Value :=
               match els with
               | [] => []
               | val :: rest =>
                   visit (Number_toString i) val :: members (i + 1) rest
               end) 0 els)
  | _ => schema
  end.

(** The callback that [_forceSchemaPropertiesAsRequired] gives to [forIn]. *)
Definition forIn_callback (key : string) (val : Value) : Value :=
  match val with
  | VArr els =>
      VArr (map (fun el =>
                   if lodash_isObject el
                   then _forceSchemaPropertiesAsRequired el
                   else el) els)
  | _ =>
      if lodash_isObject (VStr key)
      then _forceSchemaPropertiesAsRequired val
      else val
  end.

(** [a.filter(x => x < limit)] on numbers of which some may be NaN: NaN
    fails the comparison, so numbers are left. *)
Definition filter_below (limit : Z) (xs : list (option Z)) : list Z :=
  flat_map (fun x => if lt_number x limit
                     then match x with Some n => [n] | None => [] end
                     else []) xs.

(** [a.map(f)] where [f] may throw. *)
Fixpoint map_throwing {A B} (f : A -> Result B) (xs : list A)
  : Result (list B) :=
  match xs with
  | [] => Ok []
  | x :: rest =>
      bind (f x) (fun y => bind (map_throwing f rest) (fun ys => Ok (y :: ys)))
  end.

(** The last callback of [_getGetMethodTestCases]: the test case of a
    retained status code.  The test case holds the response object itself,
    so it sees the schema as the rewrite left it.  The response object is
    the contract's own: what the rewrite leaves in the contract is
    [_getGetMethodTestCases_writes] below. *)
Definition testCase_of (s : SwaggerSmoke)
  (responses : list (string * ResponseSpec)) (statusCode : Z)
  : Result TestCase :=
  let metadata := lookup (Number_toString statusCode) responses in
  if notRequiredPropertiesValidation (options s) then
    match metadata with
    | Some m =>
        Ok {| code := statusCode;
              metadata :=
                Some {| schema :=
                          _forceSchemaPropertiesAsRequired (schema m) |} |}
    | None =>
        Throw (TypeError "Cannot read property 'schema' of undefined")
    end
  else Ok {| code := statusCode; metadata := metadata |}.

(** [_getGetMethodTestCases(responses)] *)
Definition _getGetMethodTestCases (s : SwaggerSmoke)
  (responses : list (string * ResponseSpec)) : Result (list TestCase) :=
  bind
    (map_throwing (testCase_of s responses)
       (filter_below (if successCases (options s) then 300 else 500)
          (map parseInt (getOwnPropertyNames responses))))
    (fun testCases =>
       match testCases with
       | _ :: _ => Ok testCases
       | [] =>
           (* adding default test case if response wasn't defined at Swagger *)
           Ok [ {| code :=
                     match successHttpCode (options s) with
                     | Some c => if c =? 0 then DEFAULT_SUCCESS_CODE else c
                     | None => DEFAULT_SUCCESS_CODE
                     end;
                   metadata := None |} ]
       end).

(** What [_getGetMethodTestCases] leaves in the contract.  With
    [notRequiredPropertiesValidation] the callback rewrites the schema of
    the response object it reads, in place, and the contract holds that
    object under the template, the method and the status code.  The
    callback does so for each retained code in turn, up to one that has
    no response object, where it throws. *)
Definition force_response (r : ResponseSpec) : ResponseSpec :=
  {| schema := _forceSchemaPropertiesAsRequired (schema r) |}.

Fixpoint rewritten_codes (responses : list (string * ResponseSpec))
  (statusCodes : list Z) : list string :=
  match statusCodes with
  | [] => []
  | statusCode :: rest =>
      if has (Number_toString statusCode) responses
      then Number_toString statusCode :: rewritten_codes responses rest
      else []
  end.

Definition force_responses (s : SwaggerSmoke)
  (responses : list (string * ResponseSpec)) : list (string * ResponseSpec) :=
  fold_left (fun rs statusCode => assoc_update statusCode force_response rs)
    (rewritten_codes responses
       (filter_below (if successCases (options s) then 300 else 500)
          (map parseInt (getOwnPropertyNames responses))))
    responses.

Definition with_responses
  (f : list (string * ResponseSpec) -> list (string * ResponseSpec))
  (m : MethodMeta) : MethodMeta :=
  {| parameters := parameters m;
     responses := f (responses m);
     security := security m;
     consumes := consumes m |}.

(** The instance after [_getGetMethodTestCases(metadata.responses)],
    where [metadata] is the object the contract holds under [template]
    and [method], as it is in every call the engine makes. *)
Definition _getGetMethodTestCases_writes (template method : string)
  (s : SwaggerSmoke) : SwaggerSmoke :=
  if notRequiredPropertiesValidation (options s) then
    with_apiDefinitions
      {| basePath := basePath (_apiDefinitions s);
         paths :=
           assoc_update template
             (assoc_update method (with_responses (force_responses s)))
             (paths (_apiDefinitions s)) |}
      s
  else s.

Section Run.
Context {E : External}.

(** What [.then] does with the response of a test case. *)
Definition on_response (testName : string) (testCase : TestCase)
  (res : Z * Value) : M unit :=
  match metadata testCase with
  | Some m =>
      if truthy (schema m)
         && negb (schemaValidator_validate (snd res) (schema m))
      then
        let schemaValidationErrorMessage :=
          match schemaValidator_errors (snd res) (schema m) with
          | [] => "unknown schema validation error"
          | errors => "[" ++ join "," errors ++ "]"
          end in
        bindM (update (console_log
                         (red (testName ++ ": " ++ schemaValidationErrorMessage))))
          (fun _ => update incr_testFails)
      else
        bindM (update (console_log (green testName)))
          (fun _ => update incr_testPasses)
  | None =>
      bindM (update (console_log (green testName)))
        (fun _ => update incr_testPasses)
  end.

(** What [.catch] does with a rejection: it counts the failure and rejects
    the promise of the test case with the same error. *)
Definition on_rejection (testName : string) (error : Exn) : M unit :=
  bindM (update (console_log (red (testName ++ ": " ++ Exn_toString error))))
    (fun _ => bindM (update incr_testFails) (fun _ => throw error)).

(** [_testCase].  The listener registered for [uncaughtException] is the
    module-level [_globalReject], which is assigned only afterwards, in
    the executor of the promise. *)
Definition _testCase (method template : string) (m : MethodMeta)
  (testCase : TestCase) : M unit :=
  bindM (read (fun s => _buildUrl s template method (parameters m) (code testCase)))
    (fun url =>
  bindM (read (fun s => _getRequestHeaders s m template method (code testCase)))
    (fun headers =>
  bindM (read (fun s => _buildRequestBody s template (parameters m) (code testCase)))
    (fun body =>
  let testName := toUpperCase method ++ " " ++ template
                  ++ " (" ++ Number_toString (code testCase) ++ ")" in
  bindM (gets (fun s => disabled s method template))
    (fun isDisabled =>
  if isDisabled then
    update (console_log (gray (toUpperCase method ++ " " ++ template)))
  else
    bindM (gets _globalReject)
      (fun listener =>
    bindM (read (fun _ => process_on_uncaughtException listener))
      (fun _ =>
    bindM (update assign_globalReject)
      (fun _ =>
    match api method with
    | None => throw (TypeError "this._api[method] is not a function")
    | Some send =>
        bindM (gets _basePath)
          (fun basePath =>
             match supertest_expect (Some (code testCase))
                     (send {| req_url := toString basePath ++ url;
                              req_headers := headers;
                              req_body := body |})
             with
             | Ok res => on_response testName testCase res
             | Throw error => on_rejection testName error
             end)
    end))))))).

(** [_testEndpointMethod].  The call of the planner is two steps here:
    what it writes into the contract, and the test cases it returns. *)
Definition _testEndpointMethod (template method : string) (m : MethodMeta)
  : M unit :=
  bindM (gets (fun s => disabled s method template))
    (fun isDisabled =>
  if isDisabled then
    update (console_log (gray (toUpperCase method ++ " " ++ template)))
  else
    bindM (update (_getGetMethodTestCases_writes template method))
      (fun _ =>
    bindM (read (fun s => _getGetMethodTestCases s (responses m)))
      (fun testCases =>
         for_of testCases (fun testCase => _testCase method template m testCase)))).

Definition _testEndpoint (name : string) (methods : list (string * MethodMeta))
  : M unit :=
  for_of methods
    (fun entry => _testEndpointMethod name (fst entry) (snd entry)).

Definition runTests : M Tally :=
  bindM (update snapshot_keys)
    (fun _ =>
  bindM (gets (fun s => paths (_apiDefinitions s)))
    (fun endpoints =>
  bindM (for_of endpoints (fun entry => _testEndpoint (fst entry) (snd entry)))
    (fun _ =>
  bindM (gets (fun s => yellow ("Passed: " ++ Number_toString (_testPasses s)
                                ++ ", Fails: " ++ Number_toString (_testFails s))))
    (fun summary =>
  bindM (update (console_log summary))
    (fun _ =>
  gets (fun s => {| fails := _testFails s; passes := _testPasses s |})))))).

End Run.

(** [contractValidator(options)], the export of the module.  The parser
    and the two settings of json-schema-faker are collaborators, given
    as functions: the parser returns the contract of a file or rejects,
    [fakeGenerator.option] and [fakeGenerator.format] return or throw. *)
Definition contractValidator
  (SwaggerParser_validate : Value -> Result ApiDefinitions)
  (fakeGenerator_option fakeGenerator_format : Value -> Result unit)
  (options : option ValidatorOptions) : Result SwaggerSmoke :=
  match options with
  | None => Throw (Error "swagger file path was not provided")
  | Some o =>
      if truthy (swaggerFilePath o) then
        bind (SwaggerParser_validate (swaggerFilePath o))
          (fun apiDefinitions =>
             match jsonSchemaFaker o with
             | Some (settings, format) =>
                 bind (fakeGenerator_option settings)
                   (fun _ =>
                      bind (fakeGenerator_format format)
                        (fun _ =>
                           Ok (new_SwaggerSmoke apiDefinitions
                                 (engine_options o))))
             | None =>
                 (* options.jsonSchemaFaker.options *)
                 Throw (TypeError "Cannot read property 'options' of undefined")
             end)
      else Throw (Error "swagger file path was not provided")
  end.

End Smoke.

(** ** The engine of [lib/index.js]: one success response per method *)

Module LibIndex.
Import Js Engine.

Definition DEFAULT_SUCCESS_CODE : Z := 200.

Section WithExternal.
Context {E : External}.

Definition _call (fn : Handler) (params : list Value) : Result Value :=
  fn params.

(** [getParamValue(key, ...args)] *)
Definition getParamValue (s : SwaggerSmoke) (key : string)
  (args : list Value) : Result Value :=
  match lookup key (_requestParams s) with
  | Some entry => _call entry args
  | None =>
      match
        match _staticParams s with
        | Some dictionary => lookup key dictionary
        | None => None
        end
      with
      | Some v => Ok v
      | None => Ok VUndefined
      end
  end.

Fixpoint _buildUrl_params (s : SwaggerSmoke) (template method : string)
  (params : list ParamSpec) : Result string :=
  match params with
  | [] => Ok template
  | param :: rest =>
      if (param_in param =? "path")%string then
        bind (getParamValue s (param_name param) [VStr template; VStr method])
          (fun paramValue =>
             _buildUrl_params s
               (String_replace template ("{" ++ param_name param ++ "}")
                  (toString paramValue))
               method rest)
      else if (param_in param =? "query")%string then
        bind (getParamValue s (param_name param) [VStr template; VStr method])
          (fun paramValue =>
             _buildUrl_params s
               (template ++ (if includes template "?" then "&" else "?")
                ++ param_name param ++ "=" ++ toString paramValue)
               method rest)
      else _buildUrl_params s template method rest
  end.

Definition _buildUrl (s : SwaggerSmoke) (template method : string)
  (params : option (list ParamSpec)) : Result string :=
  match params with
  | Some ps => _buildUrl_params s template method ps
  | None => Ok template
  end.

Definition setObjectParamValue (s : SwaggerSmoke) (object : Value)
  (key template : string) : Result Value :=
  let paramMatches := jsonPath_paths object ("$.." ++ key) in
  match paramMatches with
  | [] => Ok object
  | _ :: _ =>
      bind (getParamValue s key [VStr template; VBool true])
        (fun paramValue =>
           Ok (fold_left
                 (fun object paramMatch =>
                    lodash_set object
                      (substring_from 2 (jsonPath_stringify paramMatch))
                      paramValue)
                 paramMatches object))
  end.

Fixpoint setObjectParamValues (s : SwaggerSmoke) (fakeData : Value)
  (paramsKeys : list string) (template : string) : Result Value :=
  match paramsKeys with
  | [] => Ok fakeData
  | paramKey :: rest =>
      bind (setObjectParamValue s fakeData paramKey template)
        (fun fakeData => setObjectParamValues s fakeData rest template)
  end.

Definition _buildRequestBody (s : SwaggerSmoke) (template : string)
  (params : option (list ParamSpec)) : Result Value :=
  match params with
  | None => Ok VUndefined
  | Some ps =>
      match find (fun param => (param_in param =? "body")%string) ps with
      | Some bodyParam =>
          bind (fakeGenerator_resolved (param_schema bodyParam))
            (fun fakeData =>
               if setParamsInBody (options s) then
                 bind (setObjectParamValues s fakeData (_requestParamsKeys s)
                         template)
                   (fun fakeData =>
                      match _staticParams s with
                      | Some dictionary =>
                          setObjectParamValues s fakeData
                            (getOwnPropertyNames dictionary) template
                      | None =>
                          Throw (TypeError
                                   "Cannot convert undefined or null to object")
                      end)
               else Ok fakeData)
      | None => Ok VUndefined
      end
  end.

Definition _setContentType (m : MethodMeta) (headers : list (string * Value))
  : list (string * Value) :=
  let contentType :=
    match consumes m with
    | Some (c :: _) => VStr c
    | Some [] => VUndefined
    | None => VStr "application/json"
    end in
  assoc_set "Content-Type" contentType headers.

Definition _setAuthorizationHeader (s : SwaggerSmoke)
  (securityMetadataCollection : option (list SecurityRequirement))
  (headers : list (string * Value)) (path method : string)
  : Result (list (string * Value)) :=
  match securityMetadataCollection, _security s with
  | Some (securityMetadata :: _), _ :: _ =>
      let securityMiddlewareKey :=
        find (fun middlewareKey => has middlewareKey securityMetadata)
          (_securityKeys s) in
      match securityMiddlewareKey with
      | Some k =>
          match lookup k (_security s) with
          | Some middleware =>
              bind (_call middleware
                      [match lookup k securityMetadata with
                       | Some v => v
                       | None => VUndefined
                       end; VStr path; VStr method])
                (fun value => Ok (assoc_set "Authorization" value headers))
          | None =>
              Throw (TypeError "Cannot read property 'handler' of undefined")
          end
      | None =>
          (* Map.get(undefined) *)
          Throw (TypeError "Cannot read property 'handler' of undefined")
      end
  | _, _ =>
      if forceAuthorizationHeader (options s) then
        match _security s with
        | (_, first) :: _ =>
            bind (_call first [VNull; VStr path; VStr method])
              (fun value => Ok (assoc_set "Authorization" value headers))
        | [] => Ok headers
        end
      else Ok headers
  end.

Definition _getRequestHeaders (s : SwaggerSmoke) (m : MethodMeta)
  (template method : string) : Result (list (string * Value)) :=
  bind (_setAuthorizationHeader s (security m) [] template method)
    (fun headers => Ok (_setContentType m headers)).

(** [_getSuccessResponseMetadata(responses)]: the code is [None] when
    [find] finds no declared code below 300. *)
Definition _getSuccessResponseMetadata (s : SwaggerSmoke)
  (responses : list (string * ResponseSpec))
  : option Z * option ResponseSpec :=
  let code :=
    match getOwnPropertyNames responses with
    | [] =>
        Some match successHttpCode (options s) with
             | Some c => if c =? 0 then DEFAULT_SUCCESS_CODE else c
             | None => DEFAULT_SUCCESS_CODE
             end
    | names => find (fun statusCode => statusCode <? 300)
                 (filter_map_numbers (map parseInt names))
    end in
  (code,
   lookup match code with
          | Some c => Number_toString c
          | None => "undefined"
          end responses).

(** What [.then] does with the response: after a failed validation the
    function goes on to the lines that count a pass. *)
Definition on_response (method template : string)
  (successResponse : option Z * option ResponseSpec) (res : Z * Value)
  : M unit :=
  match snd successResponse with
  | None => throw (TypeError "Cannot read property 'schema' of undefined")
  | Some m =>
      bindM
        (if truthy (schema m)
            && negb (schemaValidator_validate (snd res) (schema m))
         then
           let schemaValidationErrorMessage :=
             match schemaValidator_errors (snd res) (schema m) with
             | [] => "unknown schema validation error"
             | first :: _ => first
             end in
           bindM (update (console_log
                            (red (toUpperCase method ++ " " ++ template ++ ": "
                                  ++ schemaValidationErrorMessage))))
             (fun _ => update incr_testFails)
         else ret tt)
        (fun _ =>
           bindM (update (console_log
                            (green (toUpperCase method ++ " " ++ template))))
             (fun _ => update incr_testPasses))
  end.

(** What [.catch] does: it counts the failure, and the promise resolves. *)
Definition on_rejection (method template : string) (error : Exn) : M unit :=
  bindM (update (console_log
                   (red (toUpperCase method ++ " " ++ template ++ ": "
                         ++ Exn_toString error))))
    (fun _ => update incr_testFails).

(** [p.then(f).catch(g)]: [g] also handles what [f] throws. *)
Definition then_catch {A} (r : Result A) (f : A -> M unit)
  (g : Exn -> M unit) : M unit :=
  fun s =>
    match r with
    | Ok a =>
        match f a s with
        | (Ok tt, s') => (Ok tt, s')
        | (Throw e, s') => g e s'
        end
    | Throw e => g e s
    end.

Definition _testMethod (template method : string) (m : MethodMeta) : M unit :=
  bindM (read (fun s => _buildUrl s template method (parameters m)))
    (fun url =>
  bindM (read (fun s => _buildRequestBody s template (parameters m)))
    (fun body =>
  bindM (gets (fun s => _getSuccessResponseMetadata s (responses m)))
    (fun successResponse =>
  bindM (read (fun s => _getRequestHeaders s m template method))
    (fun headers =>
  bindM (gets (fun s => disabled s method template))
    (fun isDisabled =>
  if isDisabled then
    update (console_log (gray (toUpperCase method ++ " " ++ template)))
  else
    match api method with
    | None => throw (TypeError "this._api[method] is not a function")
    | Some send =>
        bindM (gets _basePath)
          (fun basePath =>
             then_catch
               (supertest_expect (fst successResponse)
                  (send {| req_url := toString basePath ++ url;
                           req_headers := headers;
                           req_body := body |}))
               (on_response method template successResponse)
               (on_rejection method template))
    end))))).

Definition _testEndpoint (name : string) (methods : list (string * MethodMeta))
  : M unit :=
  for_of methods (fun entry => _testMethod name (fst entry) (snd entry)).

Definition runTests : M Tally :=
  bindM (update snapshot_keys)
    (fun _ =>
  bindM (gets (fun s => paths (_apiDefinitions s)))
    (fun endpoints =>
  bindM (for_of endpoints (fun entry => _testEndpoint (fst entry) (snd entry)))
    (fun _ =>
  bindM (gets (fun s => yellow ("Passed: " ++ Number_toString (_testPasses s)
                                ++ ", Fails: " ++ Number_toString (_testFails s))))
    (fun summary =>
  bindM (update (console_log summary))
    (fun _ =>
  gets (fun s => {| fails := _testFails s; passes := _testPasses s |})))))).

End WithExternal.

(** [contractValidator(options)] of [lib/index.js]: the options of
    json-schema-faker are read from [options.bodyFakeOptions]. *)
Definition contractValidator
  (SwaggerParser_validate : Value -> Result ApiDefinitions)
  (fakeGenerator_option : Value -> Result unit)
  (options : option ValidatorOptions) : Result SwaggerSmoke :=
  match options with
  | None => Throw (Error "swagger file path was not provided")
  | Some o =>
      if truthy (swaggerFilePath o) then
        bind (SwaggerParser_validate (swaggerFilePath o))
          (fun apiDefinitions =>
             bind (fakeGenerator_option (bodyFakeOptions o))
               (fun _ =>
                  Ok (new_SwaggerSmoke apiDefinitions (engine_options o))))
      else Throw (Error "swagger file path was not provided")
  end.

End LibIndex.

(** ** A sample environment

    A small application and registry on which the engine can be run: the
    fake generator answers by the schema's [type] and rejects a type
    that is not one of its own, the validator checks
    that the names under [required] are present in the body, and the
    application answers by URL.  No sample contract has a body parameter,
    so jsonpath and lodash.set are never reached; they are given as for a
    body that holds no match. *)

Module Sample.
Import Js Engine.

Definition fake (schema : Value) : Value :=
  match get_prop schema "type" with
  | VStr t =>
      if (t =? "string")%string then VStr "lorem"
      else if ((t =? "integer") || (t =? "number"))%string then VNum 7
      else if (t =? "boolean")%string then VBool true
      else if (t =? "array")%string then VArr []
      else if (t =? "object")%string then VObj []
      else VNull
  | _ => VNull
  end.

(** The generator as json-schema-faker is by default: a type it has no
    generator for is an error. *)
Definition unknown_primitive (schema : Value) : option Exn :=
  match get_prop schema "type" with
  | VStr t =>
      if existsb (String.eqb t) fakeGenerator_types then None
      else Some (Error ("unknown primitive " ++ t))
  | _ => None
  end.

Definition missing_required (body schema : Value) : list string :=
  flat_map (fun name =>
              match name with
              | VStr n =>
                  if has n (own_enumerable body) then []
                  else ["{ missing: " ++ n ++ " }"]
              | _ => []
              end)
    (match get_prop schema "required" with
     | VArr names => names
     | _ => []
     end).

Definition validate (body schema : Value) : bool :=
  match missing_required body schema with
  | [] => true
  | _ :: _ => false
  end.

(** The application: widgets are never found, [/v1/status] answers with
    a name, [/v1/profile] answers with an empty object, anything else is
    not reachable. *)
Definition app (r : Request) : Outcome :=
  match strip_prefix "/v1/widgets/" (req_url r) with
  | Some _ => Responded 404 (VObj [("message", VStr "no such widget")])
  | None =>
      if (req_url r =? "/v1/status")%string
      then Responded 200 (VObj [("name", VStr "ok")])
      else if (req_url r =? "/v1/profile")%string
      then Responded 200 (VObj [])
      else TransportError "connect ECONNREFUSED"
  end.

#[local] Instance external : External := {|
  fakeGenerator_resolve := fake;
  fakeGenerator_rejects := unknown_primitive;
  schemaValidator_validate := validate;
  schemaValidator_errors := missing_required;
  api := fun method =>
           if ((method =? "get") || (method =? "post") || (method =? "put")
               || (method =? "delete") || (method =? "patch"))%string
           then Some app else None;
  jsonPath_paths := fun _ _ => [];
  jsonPath_stringify := fun _ => "$";
  lodash_set := fun object _ _ => object;
  fakeGenerator_knows := fun t known =>
    @eq_ind_r bool true
      (fun b : bool =>
         (if b then None else Some (Error ("unknown primitive " ++ t))) = None)
      eq_refl _ known
|}.

Definition no_options : Options :=
  {| disable := None;
     forceAuthorizationHeader := false;
     notRequiredPropertiesValidation := false;
     setParamsInBody := false;
     successHttpCode := None;
     successCases := false |}.

Definition named_schema : Value :=
  VObj [("type", VStr "object");
        ("properties", VObj [("name", VObj [("type", VStr "string")])])].

Definition profile_schema : Value :=
  VObj [("type", VStr "object");
        ("properties", VObj [("name", VObj [("type", VStr "string")])]);
        ("required", VArr [VStr "name"])].

(** [GET /widgets/{id}] with responses 200 and 404, and [id] a string in
    the path. *)
Definition widgets_get : MethodMeta :=
  {| parameters := Some [ {| param_name := "id"; param_in := "path";
                             param_type := VStr "string";
                             param_schema := VUndefined |} ];
     responses := [("200", {| schema := named_schema |});
                   ("404", {| schema := VUndefined |})];
     security := None;
     consumes := None |}.

Definition status_get : MethodMeta :=
  {| parameters := None;
     responses := [("200", {| schema := named_schema |})];
     security := None;
     consumes := None |}.

Definition profile_get : MethodMeta :=
  {| parameters := None;
     responses := [("200", {| schema := profile_schema |})];
     security := None;
     consumes := None |}.

(** A method that requires [token_auth], or else [api_key]. *)
Definition secured_get : MethodMeta :=
  {| parameters := None;
     responses := [("200", {| schema := VUndefined |})];
     security := Some [[("token_auth", VArr [])]; [("api_key", VArr [])]];
     consumes := None |}.

Definition widgets_api : ApiDefinitions :=
  {| basePath := VStr "/v1";
     paths := [("/widgets/{id}", [("get", widgets_get)]);
               ("/status", [("get", status_get)])] |}.

Definition status_api : ApiDefinitions :=
  {| basePath := VStr "/v1";
     paths := [("/status", [("get", status_get)])] |}.

Definition profile_api : ApiDefinitions :=
  {| basePath := VStr "/v1";
     paths := [("/profile", [("get", profile_get)]);
               ("/status", [("get", status_get)])] |}.

(** A method whose first requirement is a scheme nobody registered. *)
Definition oauth_first_get : MethodMeta :=
  {| parameters := None;
     responses := [("200", {| schema := VUndefined |})];
     security := Some [[("oauth2", VArr [VStr "read"])];
                       [("token_auth", VArr [])]];
     consumes := None |}.

Definition strict_options : Options :=
  {| disable := None;
     forceAuthorizationHeader := false;
     notRequiredPropertiesValidation := true;
     setParamsInBody := false;
     successHttpCode := None;
     successCases := false |}.

(** Engines: a new one, one with a handler and a dictionary for
    parameters, and one with a security handler for [token_auth], as
    they are once [runTests] has copied the names. *)
Definition plain_engine : SwaggerSmoke :=
  new_SwaggerSmoke widgets_api no_options.

(** The same with a function already assigned to [_globalReject], to
    look at [_testCase] past the registration of the listener.  The
    module assigns [_globalReject] only past that registration, so an
    engine does not come to such a state by its own runs. *)
Definition listening (s : SwaggerSmoke) : SwaggerSmoke :=
  assign_globalReject s.

Definition strict_engine : SwaggerSmoke :=
  new_SwaggerSmoke widgets_api strict_options.

Definition provided_engine : SwaggerSmoke :=
  snapshot_keys
    (SwaggerSmoke_params_static [("limit", VNum 10)]
       (SwaggerSmoke_params "id" (fun _ => Ok (VStr "42")) plain_engine)).

Definition bearer : Handler := fun _ => Ok (VStr "Bearer abc").

Definition bearer_in_array : Handler := fun _ => Ok (VArr [VStr "Bearer abc"]).

Definition secured_engine (handler : Handler) : SwaggerSmoke :=
  snapshot_keys (SwaggerSmoke_security "token_auth" handler plain_engine).

(** Options that switch off every method of [widgets_api]. *)
Definition all_disabled : Options :=
  {| disable := Some ["get:/widgets/{id}"; "get:/status"];
     forceAuthorizationHeader := false;
     notRequiredPropertiesValidation := false;
     setParamsInBody := false;
     successHttpCode := None;
     successCases := false |}.

(** A search with two query parameters, one from the dictionary and one
    generated for its type. *)
Definition search_params : list ParamSpec :=
  [ {| param_name := "limit"; param_in := "query";
       param_type := VStr "integer"; param_schema := VUndefined |};
    {| param_name := "q"; param_in := "query";
       param_type := VStr "string"; param_schema := VUndefined |} ].

(** An upload: a form field of Swagger's type [file], which is not a
    type of JSON Schema, and a query parameter with no type declared. *)
Definition upload_params : list ParamSpec :=
  [ {| param_name := "document"; param_in := "formData";
       param_type := VStr "file"; param_schema := VUndefined |} ].

Definition untyped_params : list ParamSpec :=
  [ {| param_name := "q"; param_in := "query";
       param_type := VUndefined; param_schema := VUndefined |} ].

(** A method that takes a body. *)
Definition create_post : MethodMeta :=
  {| parameters := Some [ {| param_name := "widget"; param_in := "body";
                             param_type := VUndefined;
                             param_schema := VObj [("type", VStr "object")] |} ];
     responses := [("201", {| schema := VUndefined |})];
     security := None;
     consumes := Some ["application/xml"] |}.

Definition overlay_options : Options :=
  {| disable := None;
     forceAuthorizationHeader := false;
     notRequiredPropertiesValidation := false;
     setParamsInBody := true;
     successHttpCode := None;
     successCases := false |}.

(** An engine with [setParamsInBody], a dictionary, and a handler that
    throws when it is called. *)
Definition overlay_engine : SwaggerSmoke :=
  snapshot_keys
    (SwaggerSmoke_params_static [("limit", VNum 10)]
       (SwaggerSmoke_params "id" (fun _ => Throw (Error "no database"))
          (new_SwaggerSmoke widgets_api overlay_options))).

(** A handler that returns headers, [Content-Type] among them. *)
Definition custom_headers : Handler :=
  fun _ => Ok (VObj [("Authorization", VStr "Basic abc");
                     ("Content-Type", VStr "text/plain")]).

(** Two schemes registered, [api_key] first; a method that names
    [token_auth] before [api_key] in its first requirement. *)
Definition two_schemes_engine : SwaggerSmoke :=
  snapshot_keys
    (SwaggerSmoke_security "token_auth" bearer
       (SwaggerSmoke_security "api_key" custom_headers plain_engine)).

Definition both_schemes : SecurityRequirement :=
  [("token_auth", VArr []); ("api_key", VArr [VStr "k"])].



End Sample.

(** * Properties *)

Import Js Engine.

(** ** Association lists *)

Section AssocFacts.
Context {A : Type}.
Implicit Types (k : string) (v : A) (l : list (string * A)).

Lemma lookup_assoc_set_eq k v l : lookup k (assoc_set k v l) = Some v.
Proof.
  induction l as [|[k' v'] l IH]; simpl.
  - now rewrite String.eqb_refl.
  - destruct (String.eqb k k') eqn:Hk; simpl.
    + now rewrite String.eqb_refl.
    + now rewrite Hk.
Qed.

Lemma lookup_assoc_set_ne k k' v l :
  k <> k' -> lookup k' (assoc_set k v l) = lookup k' l.
Proof.
  intros Hne. induction l as [|[k0 v0] l IH]; simpl.
  - destruct (String.eqb k' k) eqn:Hk; [|reflexivity].
    apply String.eqb_eq in Hk. congruence.
  - destruct (String.eqb k k0) eqn:Hk; simpl.
    + apply String.eqb_eq in Hk. subst k0.
      destruct (String.eqb k' k) eqn:Hk'; [|reflexivity].
      apply String.eqb_eq in Hk'. congruence.
    + now rewrite IH.
Qed.

Lemma lookup_None_not_In k l : lookup k l = None <-> ~ In k (keys l).
Proof.
  induction l as [|[k0 v0] l IH]; simpl.
  - tauto.
  - destruct (String.eqb k k0) eqn:Hk.
    + apply String.eqb_eq in Hk. subst. split; [discriminate|tauto].
    + apply String.eqb_neq in Hk. rewrite IH. split.
      * intros H [H1|H1]; [congruence|tauto].
      * tauto.
Qed.

End AssocFacts.

(** [Object.assign] takes the source's value for the source's keys and
    leaves every other key of the target as it was. *)
Lemma lookup_Object_assign (k : string) (source target : list (string * Value)) :
  NoDup (keys source) ->
  lookup k (Object_assign target source) =
  match lookup k source with
  | Some x => Some x
  | None => lookup k target
  end.
Proof.
  unfold Object_assign. revert target.
  induction source as [|[k0 v0] source IH]; intros target Hnd; simpl.
  - reflexivity.
  - inversion Hnd as [|? ? Hnotin Hnd']; subst.
    rewrite IH by assumption.
    destruct (String.eqb k k0) eqn:Hk.
    + apply String.eqb_eq in Hk. subst k0.
      apply lookup_None_not_In in Hnotin. rewrite Hnotin.
      apply lookup_assoc_set_eq.
    + apply String.eqb_neq in Hk.
      destruct (lookup k source); [reflexivity|].
      apply lookup_assoc_set_ne. congruence.
Qed.

(** ** Strings *)



(** ** The force-required rewrite *)

(** The equation of the source: [required] is assigned first, then every
    member of the object goes through the callback. *)
Lemma _forceSchemaPropertiesAsRequired_eq (kvs : list (string * Value)) :
  Smoke._forceSchemaPropertiesAsRequired (VObj kvs) =
  VObj (map (fun kv => (fst kv, Smoke.forIn_callback (fst kv) (snd kv)))
          (if truthy (get_prop (VObj kvs) "properties")
           then assoc_set "required"
                  (VArr (map VStr (Object_getOwnPropertyNames
                                     (get_prop (VObj kvs) "properties"))))
                  kvs
           else kvs)).
Proof.
  assert (Hmap : forall l : list (string * Value),
             map (fun kv => match kv with
                            | (key, val) => (key, Smoke.forIn_callback key val)
                            end) l
             = map (fun kv => (fst kv, Smoke.forIn_callback (fst kv) (snd kv))) l).
  { intros l. apply map_ext. now intros [? ?]. }
  assert (Hset : forall k v (l : list (string * Value)),
             Smoke.forIn_callback k v = v ->
             map (fun kv => (fst kv, Smoke.forIn_callback (fst kv) (snd kv)))
               (assoc_set k v l)
             = assoc_set k v
                 (map (fun kv => (fst kv, Smoke.forIn_callback (fst kv) (snd kv))) l)).
  { intros k v l Hv. induction l as [|[k0 v0] l IH]; simpl.
    - now rewrite Hv.
    - destruct (String.eqb k k0); simpl; [now rewrite Hv|now rewrite IH]. }
  change (Smoke._forceSchemaPropertiesAsRequired (VObj kvs))
    with (VObj (if truthy (get_prop (VObj kvs) "properties")
                then assoc_set "required"
                       (VArr (map VStr (Object_getOwnPropertyNames
                                          (get_prop (VObj kvs) "properties"))))
                       (map (fun kv => match kv with
                                       | (key, val) =>
                                           (key, Smoke.forIn_callback key val)
                                       end) kvs)
                else map (fun kv => match kv with
                                    | (key, val) =>
                                        (key, Smoke.forIn_callback key val)
                                    end) kvs)).
  rewrite Hmap.
  destruct (truthy (get_prop (VObj kvs) "properties")); [|reflexivity].
  rewrite Hset; [reflexivity|].
  simpl. f_equal. rewrite map_map. apply map_ext. reflexivity.
Qed.

(** A member that is not an array goes through the callback unchanged,
    whatever it is: the test [lodash.isObject(key)] is on a string. *)
Lemma forIn_callback_not_array (key : string) (val : Value) :
  lodash_isArray val = false -> Smoke.forIn_callback key val = val.
Proof. destruct val; simpl; intros H; try reflexivity; discriminate. Qed.

(** X3: at the top level of an object schema with [properties],
    [required] becomes the names of the properties. *)
Lemma _forceSchemaPropertiesAsRequired_top (kvs : list (string * Value)) :
  truthy (get_prop (VObj kvs) "properties") = true ->
  get_prop (Smoke._forceSchemaPropertiesAsRequired (VObj kvs)) "required"
  = VArr (map VStr (Object_getOwnPropertyNames
                      (get_prop (VObj kvs) "properties"))).
Proof.
  intros H. simpl Smoke._forceSchemaPropertiesAsRequired.
  rewrite H. unfold get_prop at 1. simpl own_enumerable.
  now rewrite lookup_assoc_set_eq.
Qed.

(** ** Parameter resolution *)

Section ParamResolution.
Context {E : External}.

(** With no handler and no static entry for the key, [getParamValue]
    comes down to [_generateErrorParam] on a declared type, and to
    [undefined] without one. *)
Lemma getParamValue_fallthrough (s : SwaggerSmoke) (key : string)
  (type : Value) (statusCode : Z) (args : list Value) :
  lookup key (_requestParams s) = None ->
  (forall dictionary,
      _staticParams s = Some dictionary -> lookup key dictionary = None) ->
  Smoke.getParamValue s key type statusCode args =
  if truthy type then Smoke._generateErrorParam type statusCode
  else Ok VUndefined.
Proof.
  intros Hh Hs. unfold Smoke.getParamValue. rewrite Hh.
  destruct (_staticParams s) as [d|] eqn:Hd.
  - now rewrite (Hs d eq_refl).
  - reflexivity.
Qed.

Lemma truthy_VStr (t : string) : t <> "" -> truthy (VStr t) = true.
Proof.
  intros H. simpl. destruct (String.eqb t "") eqn:Ht; [|reflexivity].
  apply String.eqb_eq in Ht. contradiction.
Qed.

(** The generator, awaited, on a schema it does not reject and on one it
    rejects. *)
Lemma fakeGenerator_resolved_Ok (schema : Value) :
  fakeGenerator_rejects schema = None ->
  fakeGenerator_resolved schema = Ok (fakeGenerator_resolve schema).
Proof. intros H. unfold fakeGenerator_resolved. now rewrite H. Qed.

Lemma fakeGenerator_resolved_Throw (schema : Value) (error : Exn) :
  fakeGenerator_rejects schema = Some error ->
  fakeGenerator_resolved schema = Throw error.
Proof. intros H. unfold fakeGenerator_resolved. now rewrite H. Qed.

Lemma fakeGenerator_resolved_known (t : string) :
  existsb (String.eqb t) fakeGenerator_types = true ->
  fakeGenerator_resolved (VObj [("type", VStr t)])
  = Ok (fakeGenerator_resolve (VObj [("type", VStr t)])).
Proof.
  intros H. apply fakeGenerator_resolved_Ok. now apply fakeGenerator_knows.
Qed.

(** The mismatched type is always [string] or [integer], which the
    generator knows. *)
Lemma mismatched_type_cases (type : Value) :
  Smoke.mismatched_type type = VStr "string"
  \/ Smoke.mismatched_type type = VStr "integer".
Proof.
  destruct type; try (now left). simpl.
  match goal with |- context [if ?b then _ else _] => destruct b end;
    [now left|].
  match goal with |- context [if ?b then _ else _] => destruct b end;
    [now right|now left].
Qed.

Lemma mismatched_type_generated (type : Value) :
  fakeGenerator_resolved (VObj [("type", Smoke.mismatched_type type)])
  = Ok (fakeGenerator_resolve (VObj [("type", Smoke.mismatched_type type)])).
Proof.
  destruct (mismatched_type_cases type) as [-> | ->];
    now apply fakeGenerator_resolved_known.
Qed.

(** C2 (as amended): with no handler and no static entry, a parameter of
    a declared type resolves to what the generator gives for a schema of
    one type only.  When the target status code is exactly 400 that type
    is the mismatched one of the table (integer, number, boolean, array,
    object give string; string gives integer; any other type gives
    string) and a value is generated.  At every other status code, the
    other codes of the 400 class included, the type is the declared one,
    with no inversion: a value of the declared type is generated when it
    is a type the generator knows, and when the generator rejects the
    declared type the resolution rejects with the generator's error. *)
Theorem C2_inversion_only_at_400 (s : SwaggerSmoke) (key t : string)
  (statusCode : Z) (args : list Value) :
  lookup key (_requestParams s) = None ->
  (forall dictionary,
      _staticParams s = Some dictionary -> lookup key dictionary = None) ->
  t <> "" ->
  let fake_of ty := Ok (fakeGenerator_resolve (VObj [("type", VStr ty)])) in
  let resolved := Smoke.getParamValue s key (VStr t) statusCode args in
  (statusCode = 400 ->
   (In t ["integer"; "number"; "boolean"; "array"; "object"] ->
    resolved = fake_of "string")
   /\ (t = "string" -> resolved = fake_of "integer")
   /\ (~ In t ["integer"; "number"; "boolean"; "array"; "object"; "string"] ->
       resolved = fake_of "string"))
  /\ (statusCode <> 400 ->
      resolved = fakeGenerator_resolved (VObj [("type", VStr t)])
      /\ (existsb (String.eqb t) fakeGenerator_types = true ->
          resolved = fake_of t)
      /\ (fakeGenerator_rejects (VObj [("type", VStr t)]) = None ->
          resolved = fake_of t)
      /\ (forall error,
             fakeGenerator_rejects (VObj [("type", VStr t)]) = Some error ->
             resolved = Throw error)).
Proof.
  intros Hh Hs Ht fake_of resolved. subst fake_of resolved.
  rewrite (getParamValue_fallthrough _ _ _ _ _ Hh Hs).
  rewrite (truthy_VStr _ Ht). unfold Smoke._generateErrorParam.
  rewrite (truthy_VStr _ Ht). split.
  - intros ->. rewrite Z.eqb_refl. cbv zeta.
    rewrite mismatched_type_generated. split; [|split].
    + simpl. intros [<-|[<-|[<-|[<-|[<-|[]]]]]]; reflexivity.
    + intros ->. reflexivity.
    + intros Hnot. unfold Smoke.mismatched_type.
      destruct (String.eqb t "integer") eqn:H1;
        [apply String.eqb_eq in H1; subst; exfalso; apply Hnot; simpl; tauto|].
      destruct (String.eqb t "number") eqn:H2;
        [apply String.eqb_eq in H2; subst; exfalso; apply Hnot; simpl; tauto|].
      destruct (String.eqb t "boolean") eqn:H3;
        [apply String.eqb_eq in H3; subst; exfalso; apply Hnot; simpl; tauto|].
      destruct (String.eqb t "array") eqn:H4;
        [apply String.eqb_eq in H4; subst; exfalso; apply Hnot; simpl; tauto|].
      destruct (String.eqb t "object") eqn:H5;
        [apply String.eqb_eq in H5; subst; exfalso; apply Hnot; simpl; tauto|].
      destruct (String.eqb t "string") eqn:H6;
        [apply String.eqb_eq in H6; subst; exfalso; apply Hnot; simpl; tauto|].
      reflexivity.
  - intros Hne. apply Z.eqb_neq in Hne. rewrite Hne. cbv zeta.
    split; [reflexivity|split; [|split]].
    + apply fakeGenerator_resolved_known.
    + apply fakeGenerator_resolved_Ok.
    + intros error. apply fakeGenerator_resolved_Throw.
Qed.

(** C3 (as amended): [getParamValue] tries, first match winning, (1) the
    handler registered for the key, (2) the static dictionary entry for
    the key, (3) when a type is declared, the generator on a schema of
    one type only, the mismatched type when the target status code is
    exactly 400 and the declared type at every other status code: the
    parameter resolves to the generated value, or the resolution rejects
    with the generator's error when the generator rejects that type,
    which it never does at 400; (4) only a parameter without a declared
    type resolves to [undefined], and such a parameter is not omitted:
    [_buildUrl] writes the text [undefined] for it, after [name=] in the
    query string or in place of the placeholder in the path. *)
Theorem C3_resolution_order (s : SwaggerSmoke) (key : string) (type : Value)
  (statusCode : Z) (args : list Value) :
  let resolved := Smoke.getParamValue s key type statusCode args in
  let no_handler := lookup key (_requestParams s) = None in
  let no_static :=
    forall dictionary,
      _staticParams s = Some dictionary -> lookup key dictionary = None in
  let generated_for :=
    VObj [("type", if statusCode =? 400
                   then Smoke.mismatched_type type else type)] in
  (forall handler,
      lookup key (_requestParams s) = Some handler -> resolved = handler args)
  /\ (no_handler ->
      forall dictionary v,
        _staticParams s = Some dictionary -> lookup key dictionary = Some v ->
        resolved = Ok v)
  /\ (no_handler -> no_static -> truthy type = true ->
      resolved = fakeGenerator_resolved generated_for
      /\ (fakeGenerator_rejects generated_for = None ->
          resolved = Ok (fakeGenerator_resolve generated_for))
      /\ (forall error,
             fakeGenerator_rejects generated_for = Some error ->
             resolved = Throw error)
      /\ (statusCode = 400 ->
          resolved = Ok (fakeGenerator_resolve generated_for)))
  /\ (no_handler -> no_static -> truthy type = false ->
      resolved = Ok VUndefined
      /\ forall template method param,
           param_name param = key -> param_type param = type ->
           (param_in param = "query" ->
            Smoke._buildUrl s template method (Some [param]) statusCode
            = Ok (template ++ (if includes template "?" then "&" else "?")
                  ++ key ++ "=" ++ "undefined"))
           /\ (param_in param = "path" ->
               Smoke._buildUrl s template method (Some [param]) statusCode
               = Ok (String_replace template ("{" ++ key ++ "}")
                       "undefined"))).
Proof.
  intros resolved no_handler no_static generated_for.
  subst resolved no_handler no_static generated_for.
  split; [|split; [|split]].
  - intros handler Hh. unfold Smoke.getParamValue. now rewrite Hh.
  - intros Hh d v Hd Hv. unfold Smoke.getParamValue. now rewrite Hh, Hd, Hv.
  - intros Hh Hs Ht. rewrite (getParamValue_fallthrough _ _ _ _ _ Hh Hs).
    rewrite Ht. unfold Smoke._generateErrorParam. rewrite Ht. cbv zeta.
    split; [reflexivity|split; [|split]].
    + apply fakeGenerator_resolved_Ok.
    + intros error. apply fakeGenerator_resolved_Throw.
    + intros ->. rewrite Z.eqb_refl. apply mismatched_type_generated.
  - intros Hh Hs Ht. split.
    + rewrite (getParamValue_fallthrough _ _ _ _ _ Hh Hs). now rewrite Ht.
    + intros template method param Hname Htype.
      unfold Smoke._buildUrl, Smoke._buildUrl_params.
      rewrite Hname, Htype.
      split; intros ->.
      * change (String.eqb "query" "body") with false.
        change (String.eqb "query" "path") with false.
        change (String.eqb "query" "query") with true. cbv iota.
        rewrite (getParamValue_fallthrough _ _ _ _ _ Hh Hs). now rewrite Ht.
      * change (String.eqb "path" "body") with false.
        change (String.eqb "path" "path") with true. cbv iota.
        rewrite (getParamValue_fallthrough _ _ _ _ _ Hh Hs). now rewrite Ht.
Qed.


End ParamResolution.

(** ** Security headers *)

Section SecurityHeaders.
Context {E : External}.

(** No name of [names] is a scheme of the requirement: [find] finds
    nothing. *)
Lemma find_unmatched (names : list string) (requirement : SecurityRequirement) :
  (forall k, In k names -> has k requirement = false) ->
  find (fun middlewareKey => has middlewareKey requirement) names = None.
Proof.
  intros H. induction names as [|k names IH]; simpl; [reflexivity|].
  rewrite (H k (or_introl eq_refl)). apply IH.
  intros k' Hin. apply H. now right.
Qed.

(** C7 (as amended): when the selected security handler returns a string,
    the headers gain [Authorization] with that string and nothing else
    changes; when it returns a plain object, the headers take the value
    of every key of the object and keep every other header; when it
    returns an array, which [lodash.isObject] also accepts, no error is
    raised and the elements are added under their indices; when it
    returns any other value (undefined, null, a boolean, a number), an
    explicit [Error] is thrown and no headers are produced. *)
Theorem C7_security_header_by_type (s : SwaggerSmoke)
  (securityMetadataCollection : option (list SecurityRequirement))
  (headers : list (string * Value)) (path method : string)
  (caseStatusCode : Z) (middleware : Handler) (metadata securityHeader : Value) :
  _security s <> [] ->
  Smoke.select_middleware s securityMetadataCollection
  = Some (Some middleware, metadata) ->
  middleware [metadata; VStr path; VStr method; VNum caseStatusCode]
  = Ok securityHeader ->
  let result :=
    Smoke._setSecurityHeader s securityMetadataCollection headers path method
      caseStatusCode in
  (forall text,
      securityHeader = VStr text ->
      exists headers',
        result = Ok headers'
        /\ lookup "Authorization" headers' = Some (VStr text)
        /\ forall k, k <> "Authorization" ->
                     lookup k headers' = lookup k headers)
  /\ (forall kvs,
         securityHeader = VObj kvs -> NoDup (keys kvs) ->
         exists headers',
           result = Ok headers'
           /\ forall k, lookup k headers' =
                        match lookup k kvs with
                        | Some v => Some v
                        | None => lookup k headers
                        end)
  /\ (forall xs,
         securityHeader = VArr xs ->
         result = Ok (Object_assign headers (index_from 0 xs)))
  /\ (lodash_isObject securityHeader = false ->
      lodash_isString securityHeader = false ->
      exists msg, result = Throw (Error msg)).
Proof.
  intros Hreg Hsel Hcall result.
  assert (Hres : result = Smoke.apply_securityHeader headers securityHeader).
  { subst result. unfold Smoke._setSecurityHeader.
    destruct (_security s) as [|entry registry]; [contradiction|].
    rewrite Hsel. unfold Smoke._call. now rewrite Hcall. }
  rewrite Hres. unfold Smoke.apply_securityHeader. repeat split.
  - intros text ->. simpl. eexists. split; [reflexivity|]. split.
    + apply lookup_assoc_set_eq.
    + intros k Hk. apply lookup_assoc_set_ne. congruence.
  - intros kvs -> Hnd. simpl. eexists. split; [reflexivity|].
    intros k. now apply lookup_Object_assign.
  - intros xs ->. reflexivity.
  - intros Hobj Hstr. rewrite Hobj, Hstr. eexists. reflexivity.
Qed.

(** C10: with a security handler registered and a non-empty requirement
    list whose first entry names no registered scheme, header resolution
    throws a [TypeError] (the middleware looked up is [undefined] and its
    [handler] is read), in [_setSecurityHeader] and [_getRequestHeaders]
    and likewise in [_setAuthorizationHeader] of [lib/index.js]; the
    headers are not returned and the later entries are not tried. *)
Theorem C10_unmatched_first_requirement_throws (s : SwaggerSmoke)
  (m : MethodMeta) (first : SecurityRequirement)
  (later : list SecurityRequirement) (headers : list (string * Value))
  (path method : string) (caseStatusCode : Z) :
  _security s <> [] ->
  _securityKeys s = keys (_security s) ->
  security m = Some (first :: later) ->
  (forall k, In k (keys (_security s)) -> has k first = false) ->
  (exists msg,
      Smoke._setSecurityHeader s (security m) headers path method
        caseStatusCode = Throw (TypeError msg))
  /\ (exists msg,
         Smoke._getRequestHeaders s m path method caseStatusCode
         = Throw (TypeError msg))
  /\ (exists msg,
         LibIndex._setAuthorizationHeader s (security m) headers path method
         = Throw (TypeError msg))
  /\ (exists msg,
         LibIndex._getRequestHeaders s m path method = Throw (TypeError msg)).
Proof.
  intros Hreg Hkeys Hsec Hnone.
  assert (Hfind : find (fun middlewareKey => has middlewareKey first)
                    (_securityKeys s) = None).
  { rewrite Hkeys. now apply find_unmatched. }
  assert (Hnew : forall h,
             Smoke._setSecurityHeader s (security m) h path method
               caseStatusCode
             = Throw (TypeError "Cannot read property 'handler' of undefined")).
  { intros h. unfold Smoke._setSecurityHeader, Smoke.select_middleware.
    rewrite Hsec, Hfind.
    destruct (_security s) as [|entry registry]; [contradiction|reflexivity]. }
  assert (Hold : forall h,
             LibIndex._setAuthorizationHeader s (security m) h path method
             = Throw (TypeError "Cannot read property 'handler' of undefined")).
  { intros h. unfold LibIndex._setAuthorizationHeader.
    rewrite Hsec, Hfind.
    destruct (_security s) as [|entry registry]; [contradiction|reflexivity]. }
  repeat split; eexists.
  - apply Hnew.
  - unfold Smoke._getRequestHeaders. rewrite Hnew. reflexivity.
  - apply Hold.
  - unfold LibIndex._getRequestHeaders. rewrite Hold. reflexivity.
Qed.

End SecurityHeaders.

(** ** The planner *)

Section Planner.

Lemma filter_below_spec (limit : Z) (xs : list (option Z)) :
  Smoke.filter_below limit xs
  = filter (fun c => c <? limit) (filter_map_numbers xs).
Proof.
  induction xs as [|[n|] xs IH]; simpl; [reflexivity| |exact IH].
  unfold Smoke.filter_below in *. simpl.
  destruct (n <? limit); simpl; now rewrite IH.
Qed.

Lemma map_throwing_codes (s : SwaggerSmoke)
  (responses : list (string * ResponseSpec)) (codes : list Z) :
  (notRequiredPropertiesValidation (options s) = true ->
   Forall (fun c => has (Number_toString c) responses = true) codes) ->
  exists testCases,
    Smoke.map_throwing (Smoke.testCase_of s responses) codes = Ok testCases
    /\ map code testCases = codes.
Proof.
  intros Hcanon. induction codes as [|c codes IH].
  - now exists [].
  - destruct IH as [tcs [Htcs Hcodes]].
    { intros Hon. specialize (Hcanon Hon). now inversion Hcanon. }
    cbn [Smoke.map_throwing]. rewrite Htcs. unfold Smoke.testCase_of.
    destruct (notRequiredPropertiesValidation (options s)) eqn:Hon.
    + specialize (Hcanon eq_refl). apply Forall_inv in Hcanon.
      unfold has in Hcanon.
      destruct (lookup (Number_toString c) responses); [|discriminate].
      simpl. eexists. split; [reflexivity|]. simpl. now rewrite Hcodes.
    + simpl. eexists. split; [reflexivity|]. simpl. now rewrite Hcodes.
Qed.

(** C6: the planner returns one test case per declared response status
    code below the limit (300 with [successCases], 500 otherwise), in the
    order of the declaration; when no code is left, also when no response
    is declared, it returns exactly one default case, whose code is the
    configured [successHttpCode], or 200 when none is configured.  (With
    [notRequiredPropertiesValidation] the planner reads the response
    under the decimal form of each retained code, so that form has to be
    a declared key, as it is for keys like [200]; a configured code of 0
    counts as not configured.) *)
Theorem C6_planner_cases (s : SwaggerSmoke)
  (responses : list (string * ResponseSpec)) :
  let limit := if successCases (options s) then 300 else 500 in
  let declared :=
    filter_map_numbers (map parseInt (getOwnPropertyNames responses)) in
  let retained := filter (fun c => c <? limit) declared in
  (notRequiredPropertiesValidation (options s) = true ->
   Forall (fun c => has (Number_toString c) responses = true) retained) ->
  exists testCases,
    Smoke._getGetMethodTestCases s responses = Ok testCases
    /\ (retained <> [] ->
        map code testCases = retained
        /\ List.length testCases = List.length retained)
    /\ (retained = [] ->
        exists default,
          testCases = [ {| code := default; metadata := None |} ]
          /\ (forall c, successHttpCode (options s) = Some c -> c <> 0 ->
                        default = c)
          /\ (successHttpCode (options s) = None -> default = 200)
          /\ (successHttpCode (options s) = Some 0 -> default = 200)).
Proof.
  intros limit declared retained Hcanon.
  unfold Smoke._getGetMethodTestCases.
  fold limit. rewrite filter_below_spec. fold declared. fold retained.
  destruct (map_throwing_codes s responses retained Hcanon)
    as [tcs [Htcs Hcodes]].
  rewrite Htcs. simpl bind.
  destruct tcs as [|tc tcs].
  - eexists. split; [reflexivity|]. split.
    + intros Hne. simpl in Hcodes. congruence.
    + intros _. eexists. split; [reflexivity|]. repeat split.
      * intros c Hc Hnz. rewrite Hc. apply Z.eqb_neq in Hnz. now rewrite Hnz.
      * intros Hc. now rewrite Hc.
      * intros Hc. now rewrite Hc.
  - eexists. split; [reflexivity|]. split.
    + intros _. split; [exact Hcodes|].
      rewrite <- Hcodes. now rewrite length_map.
    + intros Hnil. rewrite Hnil in Hcodes. discriminate.
Qed.

End Planner.

(** ** Runs *)

Section Runs.
Context {E : External}.

(** *** The loop stops at the first rejection *)

Lemma for_of_Throw {A} (body : A -> M unit) (x : A) (rest : list A)
  (s s' : SwaggerSmoke) (e : Exn) :
  body x s = (Throw e, s') -> for_of (x :: rest) body s = (Throw e, s').
Proof. intros H. simpl. unfold bindM. now rewrite H. Qed.

Lemma for_of_Ok {A} (body : A -> M unit) (x : A) (rest : list A)
  (s s' : SwaggerSmoke) :
  body x s = (Ok tt, s') -> for_of (x :: rest) body s = for_of rest body s'.
Proof. intros H. simpl. unfold bindM. now rewrite H. Qed.

(** *** What [_testCase] does once the request is built *)

Lemma _testCase_dispatched (method template : string) (m : MethodMeta)
  (testCase : TestCase) (s : SwaggerSmoke) (url : string)
  (headers : list (string * Value)) (body : Value)
  (send : Request -> Outcome) :
  Smoke._buildUrl s template method (parameters m) (code testCase) = Ok url ->
  Smoke._getRequestHeaders s m template method (code testCase) = Ok headers ->
  Smoke._buildRequestBody s template (parameters m) (code testCase) = Ok body ->
  disabled s method template = false ->
  _globalReject s = true ->
  api method = Some send ->
  Smoke._testCase method template m testCase s =
  let testName := toUpperCase method ++ " " ++ template
                  ++ " (" ++ Number_toString (code testCase) ++ ")" in
  match supertest_expect (Some (code testCase))
          (send {| req_url := toString (_basePath s) ++ url;
                   req_headers := headers;
                   req_body := body |})
  with
  | Ok res =>
      Smoke.on_response testName testCase res (assign_globalReject s)
  | Throw error =>
      Smoke.on_rejection testName error (assign_globalReject s)
  end.
Proof.
  intros Hurl Hheaders Hbody Hdis Hlistener Hapi.
  unfold Smoke._testCase, bindM, read, gets, update.
  rewrite Hurl, Hheaders, Hbody, Hdis, Hlistener, Hapi. cbv zeta.
  cbn [process_on_uncaughtException _basePath assign_globalReject].
  now destruct (supertest_expect _ _).
Qed.

(** X2: before a function is assigned to [_globalReject], registering it
    as a listener throws: the test case rejects before the request is
    sent, and nothing is counted or printed. *)
Lemma _testCase_without_listener (method template : string) (m : MethodMeta)
  (testCase : TestCase) (s : SwaggerSmoke) (url : string)
  (headers : list (string * Value)) (body : Value) :
  Smoke._buildUrl s template method (parameters m) (code testCase) = Ok url ->
  Smoke._getRequestHeaders s m template method (code testCase) = Ok headers ->
  Smoke._buildRequestBody s template (parameters m) (code testCase) = Ok body ->
  disabled s method template = false ->
  _globalReject s = false ->
  Smoke._testCase method template m testCase s
  = (Throw (TypeError "The listener argument must be of type function"), s).
Proof.
  intros Hurl Hheaders Hbody Hdis Hlistener.
  unfold Smoke._testCase, bindM, read, gets, update.
  now rewrite Hurl, Hheaders, Hbody, Hdis, Hlistener.
Qed.

(** The two ends of [_testCase] past the registration of the listener,
    which is passed only where a function is already assigned to
    [_globalReject].  A failed validation of the body, once the request
    is sent and answered with the expected status: one more fail, no more
    passes, and the promise resolves, so the loop goes on. *)
Lemma _testCase_failed_validation (method template : string) (m : MethodMeta)
  (testCase : TestCase) (s : SwaggerSmoke) (url : string)
  (headers : list (string * Value)) (body : Value)
  (send : Request -> Outcome) (expected : ResponseSpec) (observed : Value) :
  Smoke._buildUrl s template method (parameters m) (code testCase) = Ok url ->
  Smoke._getRequestHeaders s m template method (code testCase) = Ok headers ->
  Smoke._buildRequestBody s template (parameters m) (code testCase) = Ok body ->
  disabled s method template = false ->
  _globalReject s = true ->
  api method = Some send ->
  send {| req_url := toString (_basePath s) ++ url;
          req_headers := headers;
          req_body := body |} = Responded (code testCase) observed ->
  metadata testCase = Some expected ->
  truthy (schema expected) = true ->
  schemaValidator_validate observed (schema expected) = false ->
  exists s',
    Smoke._testCase method template m testCase s = (Ok tt, s')
    /\ _testFails s' = _testFails s + 1
    /\ _testPasses s' = _testPasses s.
Proof.
  intros Hurl Hheaders Hbody Hdis Hlistener Hapi Hsend Hmeta Hschema Hvalid.
  rewrite (_testCase_dispatched _ _ _ _ _ _ _ _ _
             Hurl Hheaders Hbody Hdis Hlistener Hapi).
  cbv zeta. rewrite Hsend. unfold supertest_expect. rewrite Z.eqb_refl.
  unfold Smoke.on_response. rewrite Hmeta. cbn [snd].
  rewrite Hschema, Hvalid. cbn [negb andb].
  unfold bindM, update. cbn. eexists. repeat split.
Qed.

(** A rejected dispatch (a status that is not the expected one, or a
    failure of the transport): one more fail, no more passes, and the
    promise of the test case rejects with the same error. *)
Lemma _testCase_rejected (method template : string) (m : MethodMeta)
  (testCase : TestCase) (s : SwaggerSmoke) (url : string)
  (headers : list (string * Value)) (body : Value)
  (send : Request -> Outcome) (error : Exn) :
  Smoke._buildUrl s template method (parameters m) (code testCase) = Ok url ->
  Smoke._getRequestHeaders s m template method (code testCase) = Ok headers ->
  Smoke._buildRequestBody s template (parameters m) (code testCase) = Ok body ->
  disabled s method template = false ->
  _globalReject s = true ->
  api method = Some send ->
  supertest_expect (Some (code testCase))
    (send {| req_url := toString (_basePath s) ++ url;
             req_headers := headers;
             req_body := body |}) = Throw error ->
  exists s',
    Smoke._testCase method template m testCase s = (Throw error, s')
    /\ _testFails s' = _testFails s + 1
    /\ _testPasses s' = _testPasses s.
Proof.
  intros Hurl Hheaders Hbody Hdis Hlistener Hapi Hsend.
  rewrite (_testCase_dispatched _ _ _ _ _ _ _ _ _
             Hurl Hheaders Hbody Hdis Hlistener Hapi).
  cbv zeta. rewrite Hsend. unfold Smoke.on_rejection, bindM, update, throw.
  cbn. eexists. repeat split.
Qed.

(** *** The counters are only ever added to *)

Lemma shifted_refl_zeroed (s : SwaggerSmoke) :
  shifted (_testFails s) (_testPasses s) (with_run 0 0 (console s) s) s.
Proof. exists (console s). destruct s. reflexivity. Qed.

Lemma blind_ret {A} (a : A) : counter_blind (ret a).
Proof. intros df dp s1 s2 H. now split. Qed.

Lemma blind_throw {A} (e : Exn) : counter_blind (@throw A e).
Proof. intros df dp s1 s2 H. now split. Qed.

Lemma blind_bindM {A B} (m : M A) (k : A -> M B) :
  counter_blind m -> (forall a, counter_blind (k a)) ->
  counter_blind (bindM m k).
Proof.
  intros Hm Hk df dp s1 s2 H. unfold bindM.
  destruct (Hm df dp s1 s2 H) as [Hr Hs].
  destruct (m s1) as [r1 s1'], (m s2) as [r2 s2']. simpl in Hr, Hs. subst r2.
  destruct r1 as [a|e]; [now apply Hk|now split].
Qed.

(** Reading anything but the counters and the console. *)
Lemma blind_gets {A} (f : SwaggerSmoke -> A) :
  (forall fs ps out s, f (with_run fs ps out s) = f s) ->
  counter_blind (gets f).
Proof.
  intros Hf df dp s1 s2 H. unfold gets. simpl. split; [|exact H].
  destruct H as [out ->]. now rewrite Hf.
Qed.

Lemma blind_read {A} (f : SwaggerSmoke -> Result A) :
  (forall fs ps out s, f (with_run fs ps out s) = f s) ->
  counter_blind (read f).
Proof.
  intros Hf df dp s1 s2 H. unfold read. simpl. split; [|exact H].
  destruct H as [out ->]. apply Hf.
Qed.

Lemma blind_console_log (l : LogLine) : counter_blind (update (console_log l)).
Proof.
  intros df dp s1 s2 [out ->]. split; [reflexivity|].
  now exists (out ++ [l])%list.
Qed.

Lemma blind_incr_testFails : counter_blind (update incr_testFails).
Proof.
  intros df dp s1 s2 [out ->]. split; [reflexivity|].
  exists out. unfold update, incr_testFails, with_run. simpl.
  f_equal; lia.
Qed.

Lemma blind_incr_testPasses : counter_blind (update incr_testPasses).
Proof.
  intros df dp s1 s2 [out ->]. split; [reflexivity|].
  exists out. unfold update, incr_testPasses, with_run. simpl.
  f_equal; lia.
Qed.

Lemma blind_snapshot_keys : counter_blind (update snapshot_keys).
Proof.
  intros df dp s1 s2 [out ->]. split; [reflexivity|]. now exists out.
Qed.

Lemma blind_assign_globalReject : counter_blind (update assign_globalReject).
Proof.
  intros df dp s1 s2 [out ->]. split; [reflexivity|]. now exists out.
Qed.

Lemma blind_for_of {A} (xs : list A) (body : A -> M unit) :
  (forall x, counter_blind (body x)) -> counter_blind (for_of xs body).
Proof.
  intros Hbody. induction xs as [|x xs IH]; simpl.
  - apply blind_ret.
  - apply blind_bindM; [apply Hbody|intros _; exact IH].
Qed.

Lemma blind_on_response (testName : string) (testCase : TestCase)
  (res : Z * Value) : counter_blind (Smoke.on_response testName testCase res).
Proof.
  unfold Smoke.on_response.
  destruct (metadata testCase) as [m|].
  - destruct (truthy (schema m)
              && negb (schemaValidator_validate (snd res) (schema m)))%bool;
      apply blind_bindM;
      auto using blind_console_log, blind_incr_testFails, blind_incr_testPasses.
  - apply blind_bindM;
      auto using blind_console_log, blind_incr_testPasses.
Qed.

Lemma blind_on_rejection (testName : string) (error : Exn) :
  counter_blind (Smoke.on_rejection testName error).
Proof.
  unfold Smoke.on_rejection.
  apply blind_bindM; [apply blind_console_log|intros _].
  apply blind_bindM; [apply blind_incr_testFails|intros _]. apply blind_throw.
Qed.

(** Building the request reads neither the counters nor the console. *)
Lemma _buildUrl_with_run fs ps out s template method params statusCode :
  Smoke._buildUrl (with_run fs ps out s) template method params statusCode
  = Smoke._buildUrl s template method params statusCode.
Proof.
  destruct params as [ps'|]; [|reflexivity]. simpl.
  revert template. induction ps' as [|param rest IH]; intros template.
  - reflexivity.
  - cbn [Smoke._buildUrl_params].
    destruct (String.eqb (param_in param) "body"); [apply IH|].
    change (Smoke.getParamValue (with_run fs ps out s))
      with (Smoke.getParamValue s).
    destruct (Smoke.getParamValue s (param_name param) (param_type param)
                statusCode [VStr template; VStr method]) as [v|e];
      [|reflexivity].
    cbn [bind].
    destruct (String.eqb (param_in param) "path"); [apply IH|].
    destruct (String.eqb (param_in param) "query"); apply IH.
Qed.

Lemma setObjectParamValues_with_run fs ps out s fakeData paramsKeys template
  statusCode :
  Smoke.setObjectParamValues (with_run fs ps out s) fakeData paramsKeys
    template statusCode
  = Smoke.setObjectParamValues s fakeData paramsKeys template statusCode.
Proof.
  revert fakeData. induction paramsKeys as [|k rest IH]; intros fakeData.
  - reflexivity.
  - cbn [Smoke.setObjectParamValues].
    change (Smoke.setObjectParamValue (with_run fs ps out s))
      with (Smoke.setObjectParamValue s).
    destruct (Smoke.setObjectParamValue s fakeData k template statusCode);
      [apply IH|reflexivity].
Qed.

Lemma _buildRequestBody_with_run fs ps out s template params statusCode :
  Smoke._buildRequestBody (with_run fs ps out s) template params statusCode
  = Smoke._buildRequestBody s template params statusCode.
Proof.
  unfold Smoke._buildRequestBody.
  destruct params as [ps'|]; [|reflexivity].
  destruct (find _ ps'); [|reflexivity].
  destruct (fakeGenerator_resolved _) as [fakeData|error]; [|reflexivity].
  cbn [bind options _staticParams _requestParamsKeys with_run].
  destruct (setParamsInBody (options s)); [|reflexivity].
  destruct (_staticParams s); [|reflexivity].
  apply setObjectParamValues_with_run.
Qed.

Lemma blind__getGetMethodTestCases_writes (template method : string) :
  counter_blind (update (Smoke._getGetMethodTestCases_writes template method)).
Proof.
  intros df dp s1 s2 [out ->]. split; [reflexivity|].
  exists out. unfold update, Smoke._getGetMethodTestCases_writes.
  cbn [snd options with_run].
  destruct (notRequiredPropertiesValidation (options s1)); reflexivity.
Qed.

Lemma _getGetMethodTestCases_with_run fs ps out s responses :
  Smoke._getGetMethodTestCases (with_run fs ps out s) responses
  = Smoke._getGetMethodTestCases s responses.
Proof.
  unfold Smoke._getGetMethodTestCases.
  cbn [options with_run].
  replace (Smoke.map_throwing (Smoke.testCase_of (with_run fs ps out s) responses))
    with (Smoke.map_throwing (Smoke.testCase_of s responses)); [reflexivity|].
  reflexivity.
Qed.

Lemma blind__testCase (method template : string) (m : MethodMeta)
  (testCase : TestCase) :
  counter_blind (Smoke._testCase method template m testCase).
Proof.
  unfold Smoke._testCase.
  apply blind_bindM;
    [apply blind_read; intros; apply _buildUrl_with_run|intros url].
  apply blind_bindM; [apply blind_read; reflexivity|intros headers].
  apply blind_bindM;
    [apply blind_read; intros; apply _buildRequestBody_with_run|intros body].
  apply blind_bindM; [apply blind_gets; reflexivity|intros isDisabled].
  destruct isDisabled; [apply blind_console_log|].
  apply blind_bindM; [apply blind_gets; reflexivity|intros listener].
  apply blind_bindM; [apply blind_read; reflexivity|intros _].
  apply blind_bindM; [apply blind_assign_globalReject|intros _].
  destruct (api method) as [send|]; [|apply blind_throw].
  apply blind_bindM; [apply blind_gets; reflexivity|intros basePath].
  destruct (supertest_expect _ _);
      [apply blind_on_response|apply blind_on_rejection].
Qed.

Lemma blind__testEndpointMethod (template method : string) (m : MethodMeta) :
  counter_blind (Smoke._testEndpointMethod template method m).
Proof.
  unfold Smoke._testEndpointMethod.
  apply blind_bindM; [apply blind_gets; reflexivity|intros isDisabled].
  destruct isDisabled; [apply blind_console_log|].
  apply blind_bindM; [apply blind__getGetMethodTestCases_writes|intros _].
  apply blind_bindM;
    [apply blind_read; intros; apply _getGetMethodTestCases_with_run
    |intros testCases].
  apply blind_for_of. intros testCase. apply blind__testCase.
Qed.

Lemma blind__testEndpoint (name : string)
  (methods : list (string * MethodMeta)) :
  counter_blind (Smoke._testEndpoint name methods).
Proof.
  apply blind_for_of. intros entry. apply blind__testEndpointMethod.
Qed.

Lemma offset_bindM {A} (m : M A) (k : A -> M Tally) :
  counter_blind m -> (forall a, tally_offset (k a)) ->
  tally_offset (bindM m k).
Proof.
  intros Hm Hk df dp s1 s2 H. unfold bindM.
  destruct (Hm df dp s1 s2 H) as [Hr Hs].
  destruct (m s1) as [r1 s1'], (m s2) as [r2 s2']. simpl in Hr, Hs. subst r2.
  destruct r1 as [a|e]; [now apply Hk|reflexivity].
Qed.

(** The summary line is printed from the counters, but printing changes
    the console only. *)
Lemma offset_summary :
  tally_offset
    (bindM (gets (fun s => yellow ("Passed: " ++ Number_toString (_testPasses s)
                                   ++ ", Fails: "
                                   ++ Number_toString (_testFails s))))
       (fun summary =>
          bindM (update (console_log summary))
            (fun _ =>
               gets (fun s => {| fails := _testFails s;
                                 passes := _testPasses s |})))).
Proof.
  intros df dp s1 s2 [out ->]. reflexivity.
Qed.

Lemma offset_runTests : tally_offset Smoke.runTests.
Proof.
  unfold Smoke.runTests.
  apply offset_bindM; [apply blind_snapshot_keys|intros _].
  apply offset_bindM; [apply blind_gets; reflexivity|intros endpoints].
  apply offset_bindM.
  - apply blind_for_of. intros entry. apply blind__testEndpoint.
  - intros _. apply offset_summary.
Qed.

(** C9 (as amended): the counters are set to zero by the constructor and
    [runTests] does not reset them.  The tally that [runTests] returns is
    what the same invocation counts when it starts from zero, plus the
    values the counters had when it started: on a new instance the result
    counts the test cases of that invocation only, and a later call on
    the same instance includes the counts of the earlier ones. *)
Theorem C9_counters_accumulate (s : SwaggerSmoke)
  (apiDefinitions : ApiDefinitions) (opts : Options) :
  _testFails (new_SwaggerSmoke apiDefinitions opts) = 0
  /\ _testPasses (new_SwaggerSmoke apiDefinitions opts) = 0
  /\ fst (Smoke.runTests s)
     = offset_tally (_testFails s) (_testPasses s)
         (fst (Smoke.runTests (with_run 0 0 (console s) s))).
Proof.
  split; [reflexivity|]. split; [reflexivity|].
  apply offset_runTests. apply shifted_refl_zeroed.
Qed.

End Runs.

(** ** The engine on the sample environment *)

Section OnSample.
#[local] Existing Instance Sample.external.

(** C5: the rewrite sets [required] at the top level, and in an object
    that is an element of an array ([allOf]), but it leaves the object
    schemas under [properties] and under [items] as they were: they get
    no [required]. *)
Theorem C5_nested_objects_not_rewritten :
  let inner := VObj [("type", VStr "object");
                     ("properties", VObj [("x", VObj [("type", VStr "string")])])] in
  let list_of_inner := VObj [("type", VStr "array"); ("items", inner)] in
  Smoke._forceSchemaPropertiesAsRequired
    (VObj [("properties", VObj [("a", inner); ("b", list_of_inner)])])
  = VObj [("properties", VObj [("a", inner); ("b", list_of_inner)]);
          ("required", VArr [VStr "a"; VStr "b"])]
  /\ Smoke._forceSchemaPropertiesAsRequired
       (VObj [("properties", VObj [("a", VObj []); ("b", VObj [])])])
     = VObj [("properties", VObj [("a", VObj []); ("b", VObj [])]);
             ("required", VArr [VStr "a"; VStr "b"])]
  /\ get_prop (get_prop (get_prop
                 (Smoke._forceSchemaPropertiesAsRequired
                    (VObj [("properties", VObj [("a", inner); ("b", list_of_inner)])]))
                 "properties") "a") "required" = VUndefined
  /\ Smoke._forceSchemaPropertiesAsRequired (VObj [("allOf", VArr [inner])])
     = VObj [("allOf",
              VArr [VObj [("type", VStr "object");
                          ("properties",
                           VObj [("x", VObj [("type", VStr "string")])]);
                          ("required", VArr [VStr "x"])]])].
Proof. cbv zeta. repeat split; reflexivity. Qed.

(** C8: in [_testMethod] of [lib/index.js] a body that fails the
    validation counts as a fail and, the function going on after the
    test, also as a pass: both counters are incremented and both lines
    are printed for the one request. *)
Theorem C8_libindex_failed_validation_also_passes :
  let s0 := new_SwaggerSmoke Sample.profile_api Sample.no_options in
  let r := LibIndex._testMethod "/profile" "get" Sample.profile_get s0 in
  Sample.app {| req_url := "/v1/profile";
                req_headers := [("Content-Type", VStr "application/json")];
                req_body := VUndefined |} = Responded 200 (VObj [])
  /\ schemaValidator_validate (VObj []) Sample.profile_schema = false
  /\ fst r = Ok tt
  /\ _testFails (snd r) = 1
  /\ _testPasses (snd r) = 1
  /\ console (snd r)
     = [red "GET /profile: { missing: name }"; green "GET /profile"].
Proof. cbv zeta. repeat split; vm_compute; reflexivity. Qed.

(** C2, the specification's sentence fails: at the target status code 404, a
    code of the 400 class, the parameter declared integer resolves to
    the value generated for the type integer, a number, and not to a
    value of the mismatched type string. *)
Lemma C2_no_mismatch_at_404 :
  Smoke.getParamValue Sample.plain_engine "age" (VStr "integer") 404
    [VStr "/people"; VStr "post"]
  = Ok (fakeGenerator_resolve (VObj [("type", VStr "integer")]))
  /\ fakeGenerator_resolve (VObj [("type", VStr "integer")]) = VNum 7
  /\ fakeGenerator_resolve (VObj [("type", VStr "string")]) = VStr "lorem".
Proof. repeat split; reflexivity. Qed.

Lemma C2_inversion_only_at_400_witness :
  Smoke.getParamValue Sample.plain_engine "age" (VStr "integer") 400
    [VStr "/people"; VStr "post"]
  = Ok (VStr "lorem")
  /\ Smoke.getParamValue Sample.plain_engine "age" (VStr "integer") 404
       [VStr "/people"; VStr "post"]
     = Ok (VNum 7)
  /\ Smoke.getParamValue Sample.plain_engine "document" (VStr "file") 200
       [VStr "/upload"; VStr "post"]
     = Throw (Error "unknown primitive file").
Proof.
  assert (Hno : forall key (dictionary : list (string * Value)),
             _staticParams Sample.plain_engine = Some dictionary ->
             lookup key dictionary = None)
    by (intros key dictionary H; discriminate H).
  split; [|split].
  - refine (proj1 (proj1 (C2_inversion_only_at_400 Sample.plain_engine "age"
                            "integer" 400 [VStr "/people"; VStr "post"]
                            eq_refl (Hno "age") _) eq_refl) _).
    + discriminate.
    + simpl. tauto.
  - refine (proj1 (proj2 (proj2 (C2_inversion_only_at_400 Sample.plain_engine
                                   "age" "integer" 404
                                   [VStr "/people"; VStr "post"]
                                   eq_refl (Hno "age") _) _))
              eq_refl).
    + discriminate.
    + discriminate.
  - refine (proj2 (proj2 (proj2 (proj2 (C2_inversion_only_at_400
                                          Sample.plain_engine "document" "file"
                                          200 [VStr "/upload"; VStr "post"]
                                          eq_refl (Hno "document") _) _)))
              (Error "unknown primitive file") eq_refl).
    + discriminate.
    + discriminate.
Defined.

(** C3, the specification's sentence fails at its steps (3) and (4): with no
    handler and no static entry, a parameter declared string resolves
    to a generated string at the status code 200, where the specification has
    it absent, and to a generated string, not a value of the mismatched
    type, at the status code 404.  A parameter with no declared type does
    resolve to [undefined], but it is not omitted: the URL carries it
    with the text [undefined]. *)
Lemma C3_not_absent_and_not_omitted :
  Smoke.getParamValue Sample.plain_engine "id" (VStr "string") 200
    [VStr "/widgets/{id}"; VStr "get"] = Ok (VStr "lorem")
  /\ Smoke.getParamValue Sample.plain_engine "id" (VStr "string") 404
       [VStr "/widgets/{id}"; VStr "get"] = Ok (VStr "lorem")
  /\ Smoke.getParamValue Sample.plain_engine "q" VUndefined 200
       [VStr "/search"; VStr "get"] = Ok VUndefined
  /\ Smoke._buildUrl Sample.plain_engine "/search" "get"
       (Some Sample.untyped_params) 200 = Ok "/search?q=undefined"
  /\ Smoke._buildUrl Sample.plain_engine "/widgets/{id}" "get"
       (Some [ {| param_name := "id"; param_in := "path";
                  param_type := VUndefined; param_schema := VUndefined |} ])
       200 = Ok "/widgets/undefined".
Proof. repeat split; reflexivity. Qed.

Lemma C3_resolution_order_witness :
  Smoke.getParamValue Sample.provided_engine "id" (VStr "string") 400
    [VStr "/widgets/{id}"; VStr "get"] = Ok (VStr "42")
  /\ Smoke.getParamValue Sample.provided_engine "limit" (VStr "integer") 400
       [VStr "/widgets"; VStr "get"] = Ok (VNum 10)
  /\ Smoke.getParamValue Sample.provided_engine "age" (VStr "integer") 400
       [VStr "/people"; VStr "post"] = Ok (VStr "lorem")
  /\ Smoke.getParamValue Sample.provided_engine "document" (VStr "file") 200
       [VStr "/upload"; VStr "post"] = Throw (Error "unknown primitive file")
  /\ Smoke.getParamValue Sample.provided_engine "q" VUndefined 200
       [VStr "/search"; VStr "get"] = Ok VUndefined
  /\ Smoke._buildUrl Sample.provided_engine "/search" "get"
       (Some Sample.untyped_params) 200 = Ok "/search?q=undefined".
Proof.
  assert (Hno : forall key,
             key <> "limit" ->
             forall dictionary : list (string * Value),
               _staticParams Sample.provided_engine = Some dictionary ->
               lookup key dictionary = None).
  { intros key Hkey dictionary H. injection H as <-. simpl.
    destruct (String.eqb key "limit") eqn:Hk; [|reflexivity].
    apply String.eqb_eq in Hk. contradiction. }
  split; [|split; [|split; [|split; [|split]]]].
  - exact (proj1 (C3_resolution_order Sample.provided_engine "id"
                    (VStr "string") 400 [VStr "/widgets/{id}"; VStr "get"])
             (fun _ => Ok (VStr "42")) eq_refl).
  - exact (proj1 (proj2 (C3_resolution_order Sample.provided_engine "limit"
                           (VStr "integer") 400 [VStr "/widgets"; VStr "get"]))
             eq_refl [("limit", VNum 10)] (VNum 10) eq_refl eq_refl).
  - refine (proj2 (proj2 (proj2
              (proj1 (proj2 (proj2 (C3_resolution_order Sample.provided_engine
                                      "age" (VStr "integer") 400
                                      [VStr "/people"; VStr "post"])))
                 eq_refl (Hno "age" _) eq_refl))) eq_refl).
    discriminate.
  - refine (proj1 (proj2 (proj2
              (proj1 (proj2 (proj2 (C3_resolution_order Sample.provided_engine
                                      "document" (VStr "file") 200
                                      [VStr "/upload"; VStr "post"])))
                 eq_refl (Hno "document" _) eq_refl)))
              (Error "unknown primitive file") eq_refl).
    discriminate.
  - refine (proj1 (proj2 (proj2 (proj2
              (C3_resolution_order Sample.provided_engine "q" VUndefined 200
                 [VStr "/search"; VStr "get"])))
              eq_refl (Hno "q" _) eq_refl)).
    discriminate.
  - refine (proj1 (proj2 (proj2 (proj2 (proj2
              (C3_resolution_order Sample.provided_engine "q" VUndefined 200
                 [VStr "/search"; VStr "get"])))
              eq_refl (Hno "q" _) eq_refl) "/search" "get"
              {| param_name := "q"; param_in := "query";
                 param_type := VUndefined; param_schema := VUndefined |}
              eq_refl eq_refl) eq_refl).
    discriminate.
Defined.



(** C6 on the sample: with the strict options the planner returns the
    cases 200 and 404 for the two declared responses. *)
Lemma C6_planner_cases_witness :
  exists testCases,
    Smoke._getGetMethodTestCases Sample.strict_engine
      (responses Sample.widgets_get) = Ok testCases
    /\ map code testCases = [200; 404].
Proof.
  destruct (C6_planner_cases Sample.strict_engine
              (responses Sample.widgets_get)) as [testCases [Hplan [Hsome _]]].
  - intros _. repeat constructor.
  - exists testCases. split; [exact Hplan|].
    apply Hsome. discriminate.
Defined.

(** C7, the specification's sentence fails: a handler that returns an array,
    which is neither a string nor a plain object, raises no error; the
    element is added as the header named 0. *)
Lemma C7_array_is_not_rejected :
  Smoke._setSecurityHeader (Sample.secured_engine Sample.bearer_in_array)
    (security Sample.secured_get) [] "/secured" "get" 200
  = Ok [("0", VStr "Bearer abc")].
Proof. reflexivity. Qed.

Lemma C7_security_header_by_type_witness :
  exists headers',
    Smoke._setSecurityHeader (Sample.secured_engine Sample.bearer)
      (security Sample.secured_get) [] "/secured" "get" 200 = Ok headers'
    /\ lookup "Authorization" headers' = Some (VStr "Bearer abc")
    /\ forall k, k <> "Authorization" -> lookup k headers' = lookup k [].
Proof.
  refine (proj1 (C7_security_header_by_type
                   (Sample.secured_engine Sample.bearer)
                   (security Sample.secured_get) [] "/secured" "get" 200
                   Sample.bearer (VArr []) (VStr "Bearer abc") _ eq_refl eq_refl)
            "Bearer abc" eq_refl).
  discriminate.
Defined.

(** C9, the specification's sentence fails: the first [runTests] on an engine
    returns one pass; the second call on the same engine runs one test
    case, as its two console lines show, and returns two passes.  So it
    is with [runTests] of [lib/index.js], which has the same text. *)
Lemma C9_second_run_includes_first :
  let s0 := Sample.listening
              (new_SwaggerSmoke Sample.status_api Sample.no_options) in
  let s1 := snd (Smoke.runTests s0) in
  let t0 := new_SwaggerSmoke Sample.status_api Sample.no_options in
  let t1 := snd (LibIndex.runTests t0) in
  fst (Smoke.runTests s0) = Ok {| fails := 0; passes := 1 |}
  /\ fst (Smoke.runTests s1) = Ok {| fails := 0; passes := 2 |}
  /\ console (snd (Smoke.runTests s1))
     = (console s1 ++ [green "GET /status (200)";
                       yellow "Passed: 2, Fails: 0"])%list
  /\ fst (LibIndex.runTests t0) = Ok {| fails := 0; passes := 1 |}
  /\ fst (LibIndex.runTests t1) = Ok {| fails := 0; passes := 2 |}.
Proof. cbv zeta. repeat split; vm_compute; reflexivity. Qed.

(** C10 on the sample: [token_auth] is registered, the method requires
    [oauth2] first and [token_auth] second, and the headers are not
    resolved. *)
Lemma C10_unmatched_first_requirement_throws_witness :
  exists msg,
    Smoke._getRequestHeaders (Sample.secured_engine Sample.bearer)
      Sample.oauth_first_get "/secured" "get" 200 = Throw (TypeError msg).
Proof.
  refine (proj1 (proj2 (C10_unmatched_first_requirement_throws
                          (Sample.secured_engine Sample.bearer)
                          Sample.oauth_first_get
                          [("oauth2", VArr [VStr "read"])]
                          [[("token_auth", VArr [])]] [] "/secured" "get" 200
                          _ eq_refl eq_refl _))).
  - discriminate.
  - intros k [<-|[]]. reflexivity.
Defined.

(** In [_testCase], on the sample: the body of [/profile] fails the
    validation, which counts one fail and no pass, and the promise
    resolves. *)
Lemma _testCase_failed_validation_witness :
  let s := Sample.listening
             (new_SwaggerSmoke Sample.profile_api Sample.no_options) in
  let testCase := {| code := 200;
                     metadata := Some {| schema := Sample.profile_schema |} |} in
  exists s',
    Smoke._testCase "get" "/profile" Sample.profile_get testCase s = (Ok tt, s')
    /\ _testFails s' = _testFails s + 1
    /\ _testPasses s' = _testPasses s.
Proof.
  exact (_testCase_failed_validation "get" "/profile" Sample.profile_get
           {| code := 200;
              metadata := Some {| schema := Sample.profile_schema |} |}
           (Sample.listening
              (new_SwaggerSmoke Sample.profile_api Sample.no_options))
           "/profile" [("Content-Type", VStr "application/json")] VUndefined
           Sample.app {| schema := Sample.profile_schema |} (VObj [])
           eq_refl eq_refl eq_refl eq_refl eq_refl eq_refl eq_refl eq_refl
           eq_refl eq_refl).
Defined.

(** In a new process the first test case rejects when it registers the
    listener. *)
Lemma _testCase_without_listener_witness :
  let s := new_SwaggerSmoke Sample.status_api Sample.no_options in
  let testCase := {| code := 200;
                     metadata := Some {| schema := Sample.named_schema |} |} in
  Smoke._testCase "get" "/status" Sample.status_get testCase s
  = (Throw (TypeError "The listener argument must be of type function"), s).
Proof.
  exact (_testCase_without_listener "get" "/status" Sample.status_get
           {| code := 200;
              metadata := Some {| schema := Sample.named_schema |} |}
           (new_SwaggerSmoke Sample.status_api Sample.no_options)
           "/status" [("Content-Type", VStr "application/json")] VUndefined
           eq_refl eq_refl eq_refl eq_refl eq_refl).
Defined.

(** The schema with the properties [a] and [b] and no [required]. *)
Lemma _forceSchemaPropertiesAsRequired_top_witness :
  get_prop
    (Smoke._forceSchemaPropertiesAsRequired
       (VObj [("properties", VObj [("a", VObj []); ("b", VObj [])])]))
    "required"
  = VArr [VStr "a"; VStr "b"].
Proof.
  exact (_forceSchemaPropertiesAsRequired_top
           [("properties", VObj [("a", VObj []); ("b", VObj [])])] eq_refl).
Defined.

End OnSample.

(** ** The console and the counters over a run *)

Section Ledger.
Context {E : External}.

Lemma reds_app (a b : list LogLine) : reds (a ++ b) = reds a + reds b.
Proof.
  unfold reds. rewrite filter_app, List.length_app. apply Nat2Z.inj_add.
Qed.

Lemma greens_app (a b : list LogLine) : greens (a ++ b) = greens a + greens b.
Proof.
  unfold greens. rewrite filter_app, List.length_app. apply Nat2Z.inj_add.
Qed.

Lemma reds_nonneg (out : list LogLine) : 0 <= reds out.
Proof. unfold reds. apply Nat2Z.is_nonneg. Qed.

Lemma greens_nonneg (out : list LogLine) : 0 <= greens out.
Proof. unfold greens. apply Nat2Z.is_nonneg. Qed.

Lemma ledger_refl (s : SwaggerSmoke) : ledger s s.
Proof.
  exists []. rewrite app_nil_r. unfold reds, greens. simpl.
  repeat split; lia.
Qed.

Lemma ledger_trans (s1 s2 s3 : SwaggerSmoke) :
  ledger s1 s2 -> ledger s2 s3 -> ledger s1 s3.
Proof.
  intros [m1 [Hc1 [Hf1 [Hp1 [H1 [H2 [H3 [H4 [H5 H6]]]]]]]]]
         [m2 [Hc2 [Hf2 [Hp2 [G1 [G2 [G3 [G4 [G5 G6]]]]]]]]].
  exists (m1 ++ m2)%list. rewrite reds_app, greens_app.
  repeat split; try congruence; try lia.
  rewrite Hc2, Hc1. now rewrite app_assoc.
Qed.

Lemma tracks_ret {A} (a : A) : tracks (ret a).
Proof. intros s. apply ledger_refl. Qed.

Lemma tracks_throw {A} (e : Exn) : tracks (@throw A e).
Proof. intros s. apply ledger_refl. Qed.

Lemma tracks_read {A} (f : SwaggerSmoke -> Result A) : tracks (read f).
Proof. intros s. apply ledger_refl. Qed.

Lemma tracks_gets {A} (f : SwaggerSmoke -> A) : tracks (gets f).
Proof. intros s. apply ledger_refl. Qed.

Lemma tracks_bindM {A B} (m : M A) (k : A -> M B) :
  tracks m -> (forall a, tracks (k a)) -> tracks (bindM m k).
Proof.
  intros Hm Hk s. unfold bindM. specialize (Hm s).
  destruct (m s) as [[a|e] s']; simpl in Hm; [|exact Hm].
  eapply ledger_trans; [exact Hm|apply Hk].
Qed.

Lemma tracks_for_of {A} (xs : list A) (body : A -> M unit) :
  (forall x, tracks (body x)) -> tracks (for_of xs body).
Proof.
  intros Hbody. induction xs as [|x xs IH]; simpl.
  - apply tracks_ret.
  - apply tracks_bindM; [apply Hbody|intros _; exact IH].
Qed.

(** A line that is neither red nor green. *)
Lemma tracks_plain_line (l : LogLine) :
  is_red l = false -> is_green l = false -> tracks (update (console_log l)).
Proof.
  intros Hr Hg s. exists [l]. unfold reds, greens. simpl. rewrite Hr, Hg.
  simpl. repeat split; lia.
Qed.

(** A red line with its fail, a green line with its pass. *)
Lemma tracks_counted_fail (text : string) :
  tracks (bindM (update (console_log (red text)))
            (fun _ => update incr_testFails)).
Proof. intros s. exists [red text]. cbn. repeat split; lia. Qed.

Lemma tracks_counted_pass (text : string) :
  tracks (bindM (update (console_log (green text)))
            (fun _ => update incr_testPasses)).
Proof. intros s. exists [green text]. cbn. repeat split; lia. Qed.

Lemma tracks_snapshot_keys : tracks (update snapshot_keys).
Proof.
  intros s. exists []. cbn. rewrite app_nil_r. repeat split; lia.
Qed.










(** A member changed where it is keeps whatever of the object does not
    look at what was changed. *)
Lemma map_assoc_update {A B} (g : string * A -> B) (f : A -> A) (k : string)
  (l : list (string * A)) :
  (forall k' v, g (k', f v) = g (k', v)) ->
  map g (assoc_update k f l) = map g l.
Proof.
  intros Hg. induction l as [|[k' v] l IH]; simpl; [reflexivity|].
  destruct (String.eqb k k'); simpl.
  - now rewrite Hg.
  - now rewrite IH.
Qed.

Lemma keys_force_responses (s : SwaggerSmoke)
  (responses : list (string * ResponseSpec)) :
  keys (Smoke.force_responses s responses) = keys responses.
Proof.
  unfold Smoke.force_responses.
  generalize (Smoke.rewritten_codes responses
                (Smoke.filter_below
                   (if successCases (options s) then 300 else 500)
                   (map parseInt (getOwnPropertyNames responses)))).
  intros statusCodes. revert responses.
  induction statusCodes as [|k rest IH]; intros responses; simpl;
    [reflexivity|].
  rewrite IH. unfold keys. now apply map_assoc_update.
Qed.





Lemma tracks_LibIndex_on_response (method template : string)
  (successResponse : option Z * option ResponseSpec) (res : Z * Value) :
  tracks (LibIndex.on_response method template successResponse res).
Proof.
  unfold LibIndex.on_response.
  destruct (snd successResponse) as [m|]; [|apply tracks_throw].
  apply tracks_bindM; [|intros _; apply tracks_counted_pass].
  destruct (truthy (schema m)
            && negb (schemaValidator_validate (snd res) (schema m)))%bool;
    [apply tracks_counted_fail|apply tracks_ret].
Qed.

Lemma tracks_LibIndex_on_rejection (method template : string) (error : Exn) :
  tracks (LibIndex.on_rejection method template error).
Proof. apply tracks_counted_fail. Qed.

Lemma tracks_then_catch {A} (r : Result A) (f : A -> M unit)
  (g : Exn -> M unit) :
  (forall a, tracks (f a)) -> (forall e, tracks (g e)) ->
  tracks (LibIndex.then_catch r f g).
Proof.
  intros Hf Hg s. unfold LibIndex.then_catch.
  destruct r as [a|e]; [|apply Hg].
  specialize (Hf a s). destruct (f a s) as [[[]|e] s']; simpl in *;
    [exact Hf|].
  eapply ledger_trans; [exact Hf|apply Hg].
Qed.

Lemma tracks_LibIndex__testMethod (template method : string) (m : MethodMeta) :
  tracks (LibIndex._testMethod template method m).
Proof.
  unfold LibIndex._testMethod.
  apply tracks_bindM; [apply tracks_read|intros url].
  apply tracks_bindM; [apply tracks_read|intros body].
  apply tracks_bindM; [apply tracks_gets|intros successResponse].
  apply tracks_bindM; [apply tracks_read|intros headers].
  apply tracks_bindM; [apply tracks_gets|intros isDisabled].
  destruct isDisabled; [now apply tracks_plain_line|].
  destruct (api method) as [send|]; [|apply tracks_throw].
  apply tracks_bindM; [apply tracks_gets|intros basePath].
  apply tracks_then_catch; intros;
    [apply tracks_LibIndex_on_response|apply tracks_LibIndex_on_rejection].
Qed.

(** X5: the same for [runTests] of [lib/index.js]: every fail has its
    red line and every pass its green line, the counters never decrease,
    the registry and the contract are untouched, and a run that resolves
    returns the counters as it leaves them. *)
Theorem LibIndex_runTests_keeps_ledger (s : SwaggerSmoke) :
  ledger s (snd (LibIndex.runTests s))
  /\ _testFails s <= _testFails (snd (LibIndex.runTests s))
  /\ _testPasses s <= _testPasses (snd (LibIndex.runTests s))
  /\ match fst (LibIndex.runTests s) with
     | Ok tally =>
         fails tally = _testFails (snd (LibIndex.runTests s))
         /\ passes tally = _testPasses (snd (LibIndex.runTests s))
     | Throw _ => True
     end.
Proof.
  assert (Hledger : ledger s (snd (LibIndex.runTests s))).
  { unfold LibIndex.runTests.
    apply tracks_bindM; [apply tracks_snapshot_keys|intros _].
    apply tracks_bindM; [apply tracks_gets|intros endpoints].
    apply tracks_bindM;
      [apply tracks_for_of; intros entry; apply tracks_for_of;
       intros method; apply tracks_LibIndex__testMethod
      |intros _].
    intros s0.
    exists [yellow ("Passed: " ++ Number_toString (_testPasses s0)
                    ++ ", Fails: " ++ Number_toString (_testFails s0))].
    cbn. repeat split; lia. }
  split; [exact Hledger|].
  destruct Hledger as [more [_ [Hf [Hp _]]]].
  pose proof (reds_nonneg more). pose proof (greens_nonneg more).
  split; [lia|]. split; [lia|].
  unfold LibIndex.runTests, bindM, gets, update. cbn [fst snd].
  destruct (for_of _ _ _) as [[[]|e] s1]; cbn; auto.
Qed.

End Ledger.

(** ** Verdicts *)

Section Verdicts.
Context {E : External}.

(** X6: one call of [_testCase] gives at most one verdict: it leaves both
    counters as they were (the method is disabled, or the call rejects
    before the request is answered), or it adds one fail, or it adds one
    pass; never both. *)
Theorem _testCase_one_verdict (method template : string) (m : MethodMeta)
  (testCase : TestCase) (s : SwaggerSmoke) :
  let s' := snd (Smoke._testCase method template m testCase s) in
  (_testFails s' = _testFails s /\ _testPasses s' = _testPasses s)
  \/ (_testFails s' = _testFails s + 1 /\ _testPasses s' = _testPasses s)
  \/ (_testFails s' = _testFails s /\ _testPasses s' = _testPasses s + 1).
Proof.
  cbv zeta. unfold Smoke._testCase, bindM, read, gets, update, throw.
  destruct (Smoke._buildUrl _ _ _ _ _) as [url|e]; cbn [fst snd]; [|now left].
  destruct (Smoke._getRequestHeaders _ _ _ _ _) as [headers|e];
    cbn [fst snd]; [|now left].
  destruct (Smoke._buildRequestBody _ _ _ _) as [body|e];
    cbn [fst snd]; [|now left].
  destruct (disabled s method template); cbn [fst snd]; [now left|].
  destruct (process_on_uncaughtException (_globalReject s)) as [[]|e];
    cbn [fst snd]; [|now left].
  destruct (api method) as [send|]; cbn [fst snd]; [|now left].
  destruct (supertest_expect _ _) as [res|error].
  - unfold Smoke.on_response, bindM, update.
    destruct (metadata testCase) as [expected|]; cbn [fst snd];
      [|right; right; cbn; split; reflexivity].
    destruct (truthy (schema expected)
              && negb (schemaValidator_validate (snd res) (schema expected)))%bool;
      cbn; [right; left|right; right]; split; reflexivity.
  - unfold Smoke.on_rejection, bindM, update, throw. cbn.
    right; left; split; reflexivity.
Qed.

(** X7: in [lib/index.js], once the request of [_testMethod] is built and
    the agent has the method, the promise resolves whatever the
    application answers, a transport failure included: a failure of the
    request never leaves [_testMethod].  Unless the method is disabled,
    the request is counted. *)
Theorem LibIndex__testMethod_resolves (template method : string)
  (m : MethodMeta) (s : SwaggerSmoke) (url : string) (body : Value)
  (headers : list (string * Value)) (send : Request -> Outcome) :
  LibIndex._buildUrl s template method (parameters m) = Ok url ->
  LibIndex._buildRequestBody s template (parameters m) = Ok body ->
  LibIndex._getRequestHeaders s m template method = Ok headers ->
  api method = Some send ->
  let r := LibIndex._testMethod template method m s in
  fst r = Ok tt
  /\ (disabled s method template = false ->
      _testFails s + _testPasses s + 1
      <= _testFails (snd r) + _testPasses (snd r)).
Proof.
  intros Hurl Hbody Hheaders Hapi. cbv zeta.
  unfold LibIndex._testMethod, bindM, read, gets, update.
  rewrite Hurl, Hbody, Hheaders. cbn [fst snd].
  destruct (disabled s method template); cbn [fst snd];
    [split; [reflexivity|discriminate]|].
  rewrite Hapi. unfold LibIndex.then_catch.
  destruct (supertest_expect _ _) as [res|error].
  - unfold LibIndex.on_response, LibIndex.on_rejection, bindM, update, throw, ret.
    destruct (snd (LibIndex._getSuccessResponseMetadata s (responses m)))
      as [expected|]; cbn [fst snd].
    + destruct (truthy (schema expected)
                && negb (schemaValidator_validate (snd res) (schema expected)))%bool;
        cbn; split; try reflexivity; intros _; lia.
    + cbn. split; [reflexivity|intros _; lia].
  - unfold LibIndex.on_rejection, bindM, update. cbn.
    split; [reflexivity|intros _; lia].
Qed.

(** When every method of the contract is disabled, the loop over the
    methods of an endpoint prints and does nothing else. *)
Lemma disabled_endpoint_quiet (name : string)
  (methods : list (string * MethodMeta)) (s : SwaggerSmoke) :
  (forall entry, In entry methods -> disabled s (fst entry) name = true) ->
  exists s',
    Smoke._testEndpoint name methods s = (Ok tt, s')
    /\ options s' = options s
    /\ _apiDefinitions s' = _apiDefinitions s
    /\ _testFails s' = _testFails s
    /\ _testPasses s' = _testPasses s
    /\ _globalReject s' = _globalReject s
    /\ reds (console s') = reds (console s)
    /\ greens (console s') = greens (console s).
Proof.
  unfold Smoke._testEndpoint. revert s.
  induction methods as [|entry methods IH]; intros s Hall.
  - exists s. repeat split.
  - cbn [for_of]. unfold bindM at 1.
    unfold Smoke._testEndpointMethod at 1. unfold bindM at 1, gets at 1.
    rewrite (Hall entry (or_introl eq_refl)). cbn [update fst snd].
    destruct (IH (console_log (gray (toUpperCase (fst entry) ++ " " ++ name)) s))
      as [s' [Hrun [Ho [Ha [Hf [Hp [Hg [Hr Hgr]]]]]]]].
    { intros e He. unfold disabled. cbn [options console_log with_run].
      apply (Hall e). now right. }
    exists s'. rewrite Hrun. split; [reflexivity|].
    rewrite Ho, Ha, Hf, Hp, Hg, Hr, Hgr. cbn [console console_log with_run].
    rewrite reds_app, greens_app. unfold reds, greens. cbn.
    repeat split; lia.
Qed.

(** X8: when every method of every path of the contract is in
    [options.disable], [runTests] resolves with the counters it found,
    whatever the handlers, the agent and the application are: no test
    case is planned or dispatched, nothing is counted, no red or green
    line is printed, and [_globalReject] is left as it was. *)
Theorem runTests_all_disabled (s : SwaggerSmoke) :
  (forall endpoint entry,
      In endpoint (paths (_apiDefinitions s)) ->
      In entry (snd endpoint) ->
      disabled s (fst entry) (fst endpoint) = true) ->
  let r := Smoke.runTests s in
  fst r = Ok {| fails := _testFails s; passes := _testPasses s |}
  /\ _testFails (snd r) = _testFails s
  /\ _testPasses (snd r) = _testPasses s
  /\ _globalReject (snd r) = _globalReject s
  /\ reds (console (snd r)) = reds (console s)
  /\ greens (console (snd r)) = greens (console s).
Proof.
  intros Hall. cbv zeta.
  assert (Hloop : forall endpoints s0,
             (forall endpoint entry,
                 In endpoint endpoints -> In entry (snd endpoint) ->
                 disabled s0 (fst entry) (fst endpoint) = true) ->
             exists s',
               for_of endpoints
                 (fun entry => Smoke._testEndpoint (fst entry) (snd entry)) s0
               = (Ok tt, s')
               /\ _testFails s' = _testFails s0
               /\ _testPasses s' = _testPasses s0
               /\ _globalReject s' = _globalReject s0
               /\ reds (console s') = reds (console s0)
               /\ greens (console s') = greens (console s0)).
  { induction endpoints as [|endpoint endpoints IH]; intros s0 H0.
    - exists s0. repeat split.
    - destruct (disabled_endpoint_quiet (fst endpoint) (snd endpoint) s0)
        as [s1 [Hrun [Ho [Ha [Hf [Hp [Hg [Hr Hgr]]]]]]]].
      { intros entry He. apply (H0 endpoint entry); [now left|exact He]. }
      destruct (IH s1) as [s2 [Hrun2 [Hf2 [Hp2 [Hg2 [Hr2 Hgr2]]]]]].
      { intros ep entry Hep He. unfold disabled. rewrite Ho.
        apply (H0 ep entry); [now right|exact He]. }
      exists s2. cbn [for_of]. unfold bindM at 1. rewrite Hrun, Hrun2.
      repeat split; congruence. }
  destruct (Hloop (paths (_apiDefinitions s)) (snapshot_keys s))
    as [s' [Hrun [Hf [Hp [Hg [Hr Hgr]]]]]].
  { intros endpoint entry Hep He. exact (Hall endpoint entry Hep He). }
  unfold Smoke.runTests, bindM, gets, update. cbn [fst snd].
  change (paths (_apiDefinitions (snapshot_keys s)))
    with (paths (_apiDefinitions s)).
  rewrite Hrun. cbn [fst snd console console_log with_run _testFails
                       _testPasses _globalReject].
  rewrite Hf, Hp, Hg. cbn [snapshot_keys with_keys _testFails _testPasses
                             _globalReject].
  rewrite reds_app, greens_app, Hr, Hgr. unfold reds, greens. cbn.
  repeat split; lia.
Qed.

End Verdicts.

(** ** Runs in a process where [_globalReject] is not assigned *)

Section Unassigned.
Context {E : External}.

Lemma idle_refl (s : SwaggerSmoke) : _globalReject s = false -> idle s s.
Proof. intros H. unfold idle. auto. Qed.

Lemma idle_trans (s1 s2 s3 : SwaggerSmoke) :
  idle s1 s2 -> idle s2 s3 -> idle s1 s3.
Proof.
  intros [_ [Hf [Hp [Hr Hg]]]] [G [Gf [Gp [Gr Gg]]]].
  unfold idle. repeat split; congruence.
Qed.

Lemma stays_idle_ret {A} (a : A) : stays_idle (ret a).
Proof. intros s H. now apply idle_refl. Qed.

Lemma stays_idle_read {A} (f : SwaggerSmoke -> Result A) : stays_idle (read f).
Proof. intros s H. now apply idle_refl. Qed.

Lemma stays_idle_gets {A} (f : SwaggerSmoke -> A) : stays_idle (gets f).
Proof. intros s H. now apply idle_refl. Qed.

Lemma stays_idle_bindM {A B} (m : M A) (k : A -> M B) :
  stays_idle m -> (forall a, stays_idle (k a)) -> stays_idle (bindM m k).
Proof.
  intros Hm Hk s Hs. unfold bindM. specialize (Hm s Hs).
  destruct (m s) as [[a|e] s']; simpl in Hm; [|exact Hm].
  eapply idle_trans; [exact Hm|]. apply Hk. apply Hm.
Qed.

Lemma stays_idle_for_of {A} (xs : list A) (body : A -> M unit) :
  (forall x, stays_idle (body x)) -> stays_idle (for_of xs body).
Proof.
  intros Hbody. induction xs as [|x xs IH]; simpl.
  - apply stays_idle_ret.
  - apply stays_idle_bindM; [apply Hbody|intros _; exact IH].
Qed.

Lemma idle_plain_line (l : LogLine) (s : SwaggerSmoke) :
  is_red l = false -> is_green l = false -> _globalReject s = false ->
  idle s (console_log l s).
Proof.
  intros Hr Hg Hs. unfold idle, console_log.
  cbn [_globalReject _testFails _testPasses console with_run].
  rewrite reds_app, greens_app. unfold reds at 2, greens at 2. simpl.
  rewrite Hr, Hg. simpl. repeat split; auto; lia.
Qed.

Lemma stays_idle_plain_line (l : LogLine) :
  is_red l = false -> is_green l = false ->
  stays_idle (update (console_log l)).
Proof. intros Hr Hg s Hs. now apply idle_plain_line. Qed.

Lemma stays_idle_snapshot_keys : stays_idle (update snapshot_keys).
Proof. intros s Hs. unfold idle. cbn. auto. Qed.

Lemma stays_idle__getGetMethodTestCases_writes (template method : string) :
  stays_idle (update (Smoke._getGetMethodTestCases_writes template method)).
Proof.
  intros s Hs. unfold update, Smoke._getGetMethodTestCases_writes.
  cbn [snd].
  destruct (notRequiredPropertiesValidation (options s));
    unfold idle; cbn; auto.
Qed.

(** A test case either is disabled, or rejects while its request is
    built, or rejects when it registers the listener. *)
Lemma stays_idle__testCase (method template : string) (m : MethodMeta)
  (testCase : TestCase) :
  stays_idle (Smoke._testCase method template m testCase).
Proof.
  intros s Hs. unfold Smoke._testCase, bindM, read, gets, update.
  destruct (Smoke._buildUrl _ _ _ _ _) as [url|e]; cbn [fst snd];
    [|now apply idle_refl].
  destruct (Smoke._getRequestHeaders _ _ _ _ _) as [headers|e];
    cbn [fst snd]; [|now apply idle_refl].
  destruct (Smoke._buildRequestBody _ _ _ _) as [body|e];
    cbn [fst snd]; [|now apply idle_refl].
  destruct (disabled s method template); cbn [fst snd];
    [now apply idle_plain_line|].
  rewrite Hs. cbn [process_on_uncaughtException fst snd].
  now apply idle_refl.
Qed.

Lemma stays_idle__testEndpoint (name : string)
  (methods : list (string * MethodMeta)) :
  stays_idle (Smoke._testEndpoint name methods).
Proof.
  apply stays_idle_for_of. intros entry. unfold Smoke._testEndpointMethod.
  apply stays_idle_bindM; [apply stays_idle_gets|intros isDisabled].
  destruct isDisabled; [now apply stays_idle_plain_line|].
  apply stays_idle_bindM;
    [apply stays_idle__getGetMethodTestCases_writes|intros _].
  apply stays_idle_bindM; [apply stays_idle_read|intros testCases].
  apply stays_idle_for_of. intros testCase. apply stays_idle__testCase.
Qed.

(** X21: no run of the engine with planned test cases gives a verdict.
    [_globalReject] is not assigned in a new engine, and registering
    handlers or a dictionary does not assign it.  From a state where it
    is not assigned, [runTests], however it ends, leaves both counters
    as they were, prints no red and no green line, and leaves
    [_globalReject] unassigned, so that the same holds of the next run;
    a run that resolves returns the counters it started from. *)
Theorem runTests_gives_no_verdict :
  (forall apiDefinitions opts,
      _globalReject (new_SwaggerSmoke apiDefinitions opts) = false)
  /\ (forall key handler s,
         _globalReject (SwaggerSmoke_security key handler s) = _globalReject s
         /\ _globalReject (SwaggerSmoke_params key handler s) = _globalReject s)
  /\ (forall dictionary s,
         _globalReject (SwaggerSmoke_params_static dictionary s)
         = _globalReject s)
  /\ (forall s,
         _globalReject s = false ->
         let r := Smoke.runTests s in
         _globalReject (snd r) = false
         /\ _testFails (snd r) = _testFails s
         /\ _testPasses (snd r) = _testPasses s
         /\ reds (console (snd r)) = reds (console s)
         /\ greens (console (snd r)) = greens (console s)
         /\ match fst r with
            | Ok tally =>
                fails tally = _testFails s /\ passes tally = _testPasses s
            | Throw _ => True
            end).
Proof.
  split; [reflexivity|]. split; [intros; split; reflexivity|].
  split; [reflexivity|]. intros s Hs r.
  assert (Hidle : idle s (snd r)).
  { subst r. revert s Hs. change (stays_idle Smoke.runTests).
    unfold Smoke.runTests.
    apply stays_idle_bindM; [apply stays_idle_snapshot_keys|intros _].
    apply stays_idle_bindM; [apply stays_idle_gets|intros endpoints].
    apply stays_idle_bindM;
      [apply stays_idle_for_of; intros entry; apply stays_idle__testEndpoint
      |intros _].
    (* the summary line is yellow *)
    intros s Hs. unfold bindM, gets, update. cbn [fst snd].
    now apply idle_plain_line. }
  destruct Hidle as [H1 [H2 [H3 [H4 H5]]]].
  repeat (split; [assumption|]).
  subst r. unfold Smoke.runTests, bindM, gets, update in *.
  cbn [fst snd] in *.
  destruct (for_of _ _ _) as [[[]|e] s1]; cbn in *; auto.
Qed.

End Unassigned.

(** ** More on the planner *)

Section PlannerMore.

Lemma map_throwing_In {A B} (f : A -> Result B) (xs : list A) (ys : list B) :
  Smoke.map_throwing f xs = Ok ys ->
  (forall y, In y ys -> exists x, In x xs /\ f x = Ok y)
  /\ (forall x, In x xs -> exists y, In y ys /\ f x = Ok y).
Proof.
  revert ys. induction xs as [|x xs IH]; intros ys H; simpl in H.
  - injection H as <-. split; intros ? [].
  - destruct (f x) as [y|e] eqn:Hfx; simpl in H; [|discriminate].
    destruct (Smoke.map_throwing f xs) as [ys'|e] eqn:Hrest; simpl in H;
      [|discriminate].
    injection H as <-. destruct (IH ys' eq_refl) as [IH1 IH2]. split.
    + intros y' [<-|Hin].
      * exists x. split; [now left|exact Hfx].
      * destruct (IH1 y' Hin) as [x' [Hx' Hf']]. exists x'. split; [now right|exact Hf'].
    + intros x' [<-|Hin].
      * exists y. split; [now left|exact Hfx].
      * destruct (IH2 x' Hin) as [y' [Hy' Hf']]. exists y'. split; [now right|exact Hf'].
Qed.

Lemma filter_below_In (limit c : Z) (xs : list (option Z)) :
  In c (Smoke.filter_below limit xs) <-> In (Some c) xs /\ c < limit.
Proof.
  rewrite filter_below_spec, filter_In. unfold filter_map_numbers.
  rewrite in_flat_map, Z.ltb_lt. split.
  - intros [[x [Hx Hc]] Hlt]. destruct x as [n|]; [|destruct Hc].
    destruct Hc as [<-|[]]. now split.
  - intros [Hin Hlt]. split; [|exact Hlt]. exists (Some c). split; [exact Hin|now left].
Qed.

(** X9: whenever the planner returns, its plan is not empty, so a method
    that is not disabled gets at least one request; every planned case
    either has a code below the limit (300 with [successCases], 500
    otherwise) that some declared response key parses to, or is the one
    default case, which carries no response.  A code of 500 or more and
    a key that is not a number, like [default], are never planned from
    the declared responses. *)
Theorem planner_never_empty (s : SwaggerSmoke)
  (responses : list (string * ResponseSpec)) (testCases : list TestCase) :
  Smoke._getGetMethodTestCases s responses = Ok testCases ->
  let limit := if successCases (options s) then 300 else 500 in
  testCases <> []
  /\ ((forall testCase,
          In testCase testCases ->
          code testCase < limit
          /\ exists key, In key (getOwnPropertyNames responses)
                         /\ parseInt key = Some (code testCase))
      \/ (exists default,
             testCases = [ {| code := default; metadata := None |} ]
             /\ forall key c,
                  In key (getOwnPropertyNames responses) ->
                  parseInt key = Some c -> limit <= c)).
Proof.
  intros H limit. unfold Smoke._getGetMethodTestCases in H. fold limit in H.
  destruct (Smoke.map_throwing _ _) as [tcs|e] eqn:Hmap; simpl in H;
    [|discriminate].
  destruct (map_throwing_In _ _ _ Hmap) as [Hback Hforth].
  destruct tcs as [|tc tcs].
  - injection H as <-. split; [discriminate|]. right. eexists. split; [reflexivity|].
    intros key c Hkey Hparse.
    destruct (Z.lt_ge_cases c limit) as [Hlt|Hge]; [|exact Hge].
    assert (Hin : In c (Smoke.filter_below limit
                          (map parseInt (getOwnPropertyNames responses)))).
    { apply filter_below_In. split; [|exact Hlt].
      rewrite <- Hparse. now apply in_map. }
    destruct (Hforth c Hin) as [y [[] _]].
  - injection H as <-. split; [discriminate|]. left.
    intros testCase Hin. destruct (Hback testCase Hin) as [c [Hc Hcase]].
    assert (Hcode : code testCase = c).
    { unfold Smoke.testCase_of in Hcase.
      destruct (notRequiredPropertiesValidation (options s)).
      - destruct (lookup (Number_toString c) responses); [|discriminate].
        now injection Hcase as <-.
      - now injection Hcase as <-. }
    apply filter_below_In in Hc. destruct Hc as [Hkeys Hlt].
    apply in_map_iff in Hkeys. destruct Hkeys as [key [Hparse Hkey]].
    rewrite Hcode. split; [exact Hlt|]. now exists key.
Qed.


End PlannerMore.

(** ** The force-required rewrite, again *)

Section RewriteTwice.

(** Induction on values through arrays and objects. *)
Lemma Value_induction (P : Value -> Prop) :
  P VUndefined -> P VNull -> (forall b, P (VBool b)) ->
  (forall n, P (VNum n)) -> (forall s, P (VStr s)) ->
  (forall xs, Forall P xs -> P (VArr xs)) ->
  (forall kvs, Forall (fun kv => P (snd kv)) kvs -> P (VObj kvs)) ->
  forall v, P v.
Proof.
  intros Hu Hn Hb Hz Hs Ha Ho. fix IH 1. intros [| |b|n|s|xs|kvs].
  - exact Hu.
  - exact Hn.
  - apply Hb.
  - apply Hz.
  - apply Hs.
  - apply Ha. induction xs as [|x xs IHxs]; constructor; [apply IH|exact IHxs].
  - apply Ho. induction kvs as [|[k v] kvs IHkvs]; constructor;
      [apply IH|exact IHkvs].
Qed.

Lemma forIn_callback_key (k k' : string) (v : Value) :
  Smoke.forIn_callback k v = Smoke.forIn_callback k' v.
Proof. destruct v; reflexivity. Qed.

Lemma force_VArr (els : list Value) :
  Smoke._forceSchemaPropertiesAsRequired (VArr els)
  = VArr (map (Smoke.forIn_callback "") els).
Proof.
  cbn [Smoke._forceSchemaPropertiesAsRequired]. f_equal.
  generalize 0. induction els as [|el els IH]; intros i; [reflexivity|].
  cbn [map]. rewrite <- (IH (i + 1)).
  rewrite (forIn_callback_key "" (Number_toString i)). reflexivity.
Qed.

Lemma isObject_force (v : Value) :
  lodash_isObject (Smoke._forceSchemaPropertiesAsRequired v) = lodash_isObject v.
Proof. destruct v; reflexivity. Qed.

Lemma truthy_forIn_callback (k : string) (v : Value) :
  truthy (Smoke.forIn_callback k v) = truthy v.
Proof. destruct v; reflexivity. Qed.

Lemma keys_index_from_map (f : Value -> Value) (xs : list Value) (i : Z) :
  keys (index_from i (map f xs)) = keys (index_from i xs).
Proof.
  revert i. induction xs as [|x xs IH]; intros i; [reflexivity|].
  simpl. f_equal. apply IH.
Qed.

Lemma names_forIn_callback (k : string) (v : Value) :
  Object_getOwnPropertyNames (Smoke.forIn_callback k v)
  = Object_getOwnPropertyNames v.
Proof.
  destruct v; try reflexivity. simpl. now rewrite keys_index_from_map.
Qed.

Lemma lookup_map_callback (k : string) (l : list (string * Value)) :
  lookup k (map (fun kv => (fst kv, Smoke.forIn_callback (fst kv) (snd kv))) l)
  = option_map (Smoke.forIn_callback k) (lookup k l).
Proof.
  induction l as [|[k0 v0] l IH]; [reflexivity|]. simpl.
  destruct (String.eqb k k0) eqn:Hk; [|exact IH].
  apply String.eqb_eq in Hk. now subst.
Qed.

Lemma map_callback_assoc_set (k : string) (v : Value)
  (l : list (string * Value)) :
  Smoke.forIn_callback k v = v ->
  map (fun kv => (fst kv, Smoke.forIn_callback (fst kv) (snd kv)))
    (assoc_set k v l)
  = assoc_set k v
      (map (fun kv => (fst kv, Smoke.forIn_callback (fst kv) (snd kv))) l).
Proof.
  intros Hv. induction l as [|[k0 v0] l IH]; simpl.
  - now rewrite Hv.
  - destruct (String.eqb k k0); simpl; [now rewrite Hv|now rewrite IH].
Qed.

Lemma assoc_set_twice {A} (k : string) (v : A) (l : list (string * A)) :
  assoc_set k v (assoc_set k v l) = assoc_set k v l.
Proof.
  induction l as [|[k0 v0] l IH]; simpl.
  - now rewrite String.eqb_refl.
  - destruct (String.eqb k k0) eqn:Hk; simpl.
    + now rewrite String.eqb_refl.
    + now rewrite Hk, IH.
Qed.

Lemma forIn_callback_names (names : list string) :
  Smoke.forIn_callback "required" (VArr (map VStr names))
  = VArr (map VStr names).
Proof. simpl. f_equal. rewrite map_map. apply map_ext. reflexivity. Qed.

(** Both the rewrite and the callback give, applied a second time, what
    they gave the first time. *)
Lemma rewrite_and_callback_twice (v : Value) :
  Smoke._forceSchemaPropertiesAsRequired
    (Smoke._forceSchemaPropertiesAsRequired v)
  = Smoke._forceSchemaPropertiesAsRequired v
  /\ forall k,
       Smoke.forIn_callback k (Smoke.forIn_callback k v)
       = Smoke.forIn_callback k v.
Proof.
  induction v as [| |b|n|s|xs IH|kvs IH] using Value_induction;
    try (split; [reflexivity|intros k; reflexivity]).
  - split.
    + rewrite !force_VArr. f_equal. rewrite map_map.
      apply map_ext_in. intros x Hx.
      rewrite Forall_forall in IH. apply (IH x Hx).
    + intros k. simpl. f_equal. rewrite map_map.
      apply map_ext_in. intros x Hx. rewrite Forall_forall in IH.
      destruct (lodash_isObject x) eqn:Hobj.
      * rewrite isObject_force, Hobj. apply (IH x Hx).
      * now rewrite Hobj.
  - split; [|intros k; reflexivity].
    assert (Htwice :
              map (fun kv => (fst kv, Smoke.forIn_callback (fst kv) (snd kv)))
                (map (fun kv => (fst kv, Smoke.forIn_callback (fst kv) (snd kv)))
                   kvs)
              = map (fun kv => (fst kv, Smoke.forIn_callback (fst kv) (snd kv)))
                  kvs).
    { rewrite map_map. apply map_ext_in. intros [k0 v0] Hin. cbn [fst snd].
      rewrite Forall_forall in IH. f_equal. apply (IH (k0, v0) Hin). }
    rewrite (_forceSchemaPropertiesAsRequired_eq kvs).
    set (props := get_prop (VObj kvs) "properties").
    set (required := VArr (map VStr (Object_getOwnPropertyNames props))).
    assert (Hprops : forall l : list (string * Value),
               lookup "properties" l = lookup "properties" kvs ->
               get_prop
                 (VObj (map (fun kv =>
                               (fst kv, Smoke.forIn_callback (fst kv) (snd kv)))
                          l)) "properties"
               = Smoke.forIn_callback "properties" props).
    { intros l Hl. unfold props, get_prop. cbn [own_enumerable].
      rewrite lookup_map_callback, Hl.
      destruct (lookup "properties" kvs); reflexivity. }
    destruct (truthy props) eqn:Htruthy.
    + rewrite map_callback_assoc_set by apply forIn_callback_names.
      rewrite _forceSchemaPropertiesAsRequired_eq.
      assert (Hp : get_prop
                     (VObj (assoc_set "required" required
                              (map (fun kv =>
                                      (fst kv,
                                       Smoke.forIn_callback (fst kv) (snd kv)))
                                 kvs))) "properties"
                   = Smoke.forIn_callback "properties" props).
      { rewrite <- (Hprops kvs eq_refl). unfold get_prop.
        cbn [own_enumerable]. now rewrite lookup_assoc_set_ne. }
      rewrite Hp, truthy_forIn_callback, Htruthy, names_forIn_callback.
      fold required. rewrite assoc_set_twice.
      rewrite map_callback_assoc_set by apply forIn_callback_names.
      now rewrite Htwice.
    + rewrite _forceSchemaPropertiesAsRequired_eq.
      rewrite (Hprops kvs eq_refl), truthy_forIn_callback, Htruthy.
      now rewrite Htwice.
Qed.

(** X11: the rewrite is idempotent: a schema that has been rewritten is
    left as it is by another rewrite, so planning the same method again,
    in the same or in a later run, changes the contract no further. *)
Theorem _forceSchemaPropertiesAsRequired_idempotent (schema : Value) :
  Smoke._forceSchemaPropertiesAsRequired
    (Smoke._forceSchemaPropertiesAsRequired schema)
  = Smoke._forceSchemaPropertiesAsRequired schema.
Proof. apply rewrite_and_callback_twice. Qed.

End RewriteTwice.

(** ** The contract after planning *)

Section PlanningAgain.

Lemma lookup_assoc_update {A} (k k0 : string) (f : A -> A)
  (l : list (string * A)) :
  lookup k (assoc_update k0 f l)
  = if String.eqb k k0 then option_map f (lookup k l) else lookup k l.
Proof.
  induction l as [|[k' v] l IH]; simpl.
  - now destruct (String.eqb k k0).
  - destruct (String.eqb k0 k') eqn:H0; simpl.
    + apply String.eqb_eq in H0. subst k'.
      destruct (String.eqb k k0); reflexivity.
    + destruct (String.eqb k k') eqn:Hk.
      * destruct (String.eqb k k0) eqn:Hk0; [|reflexivity].
        apply String.eqb_eq in Hk, Hk0. subst. now rewrite String.eqb_refl in H0.
      * exact IH.
Qed.

Lemma force_response_twice (r : ResponseSpec) :
  Smoke.force_response (Smoke.force_response r) = Smoke.force_response r.
Proof.
  unfold Smoke.force_response. cbn [schema]. f_equal.
  apply rewrite_and_callback_twice.
Qed.

(** The response under a key after the writes of the planner: rewritten
    when the key is one of those written, as it was otherwise. *)
Lemma lookup_rewritten (k : string) (statusCodes : list string)
  (responses : list (string * ResponseSpec)) :
  lookup k
    (fold_left
       (fun rs statusCode => assoc_update statusCode Smoke.force_response rs)
       statusCodes responses)
  = if existsb (String.eqb k) statusCodes
    then option_map Smoke.force_response (lookup k responses)
    else lookup k responses.
Proof.
  revert responses.
  induction statusCodes as [|k0 rest IH]; intros responses; [reflexivity|].
  cbn [fold_left existsb]. rewrite IH, lookup_assoc_update.
  destruct (String.eqb k k0); cbn [orb]; [|reflexivity].
  destruct (lookup k responses) as [r|]; cbn [option_map];
    [|now destruct (existsb _ _)].
  rewrite force_response_twice. now destruct (existsb _ _).
Qed.

Lemma map_throwing_ext {A B} (f g : A -> Result B) (xs : list A) :
  (forall x, f x = g x) -> Smoke.map_throwing f xs = Smoke.map_throwing g xs.
Proof.
  intros H. induction xs as [|x xs IH]; [reflexivity|].
  cbn [Smoke.map_throwing]. now rewrite H, IH.
Qed.

Lemma rewritten_codes_all (responses : list (string * ResponseSpec))
  (statusCodes : list Z) :
  (forall c, In c statusCodes -> has (Number_toString c) responses = true) ->
  Smoke.rewritten_codes responses statusCodes
  = map Number_toString statusCodes.
Proof.
  intros H. induction statusCodes as [|c rest IH]; [reflexivity|].
  cbn [Smoke.rewritten_codes map]. rewrite (H c (or_introl eq_refl)).
  f_equal. apply IH. intros c' Hc'. apply H. now right.
Qed.

(** X22: the contract and the plan under
    [notRequiredPropertiesValidation].  The planner writes into the
    response objects of the contract and leaves their status codes as
    they are.  Planning the same method again, in the same or in a later
    run, on the responses as the first planning left them, gives the
    same result: the same test cases, or the same error.  And each
    planned test case that carries a response carries it as the contract
    now holds it under the code of the test case. *)
Theorem planning_again (s : SwaggerSmoke)
  (responses : list (string * ResponseSpec)) :
  notRequiredPropertiesValidation (options s) = true ->
  let written := Smoke.force_responses s responses in
  keys written = keys responses
  /\ Smoke._getGetMethodTestCases s written
     = Smoke._getGetMethodTestCases s responses
  /\ (forall testCases testCase response,
         Smoke._getGetMethodTestCases s responses = Ok testCases ->
         In testCase testCases ->
         metadata testCase = Some response ->
         lookup (Number_toString (code testCase)) written = Some response).
Proof.
  intros Hon written.
  assert (Hkeys : keys written = keys responses)
    by apply keys_force_responses.
  split; [exact Hkeys|]. split.
  - unfold Smoke._getGetMethodTestCases, getOwnPropertyNames.
    rewrite Hkeys. f_equal. apply map_throwing_ext. intros c.
    unfold Smoke.testCase_of. rewrite Hon.
    subst written. unfold Smoke.force_responses. rewrite lookup_rewritten.
    destruct (existsb _ _); [|reflexivity].
    destruct (lookup (Number_toString c) responses) as [r|];
      cbn [option_map]; [|reflexivity].
    unfold Smoke.force_response at 1. cbn [schema].
    now rewrite (proj1 (rewrite_and_callback_twice (schema r))).
  - intros testCases testCase response Hplan Hin Hmeta.
    unfold Smoke._getGetMethodTestCases in Hplan.
    destruct (Smoke.map_throwing _ _) as [tcs|e] eqn:Hmap; simpl in Hplan;
      [|discriminate].
    destruct (map_throwing_In _ _ _ Hmap) as [Hback Hforth].
    destruct tcs as [|tc tcs].
    + injection Hplan as <-. destruct Hin as [<-|[]]. discriminate Hmeta.
    + injection Hplan as <-.
      destruct (Hback testCase Hin) as [c [Hc Hcase]].
      unfold Smoke.testCase_of in Hcase. rewrite Hon in Hcase.
      destruct (lookup (Number_toString c) responses) as [r|] eqn:Hr;
        [|discriminate].
      injection Hcase as <-. cbn [code metadata] in *.
      injection Hmeta as <-.
      subst written. unfold Smoke.force_responses.
      rewrite lookup_rewritten, Hr. cbn [option_map].
      rewrite rewritten_codes_all.
      * replace (existsb (String.eqb (Number_toString c)) _) with true;
          [reflexivity|].
        symmetry. apply existsb_exists. exists (Number_toString c).
        split; [now apply in_map|apply String.eqb_refl].
      * intros c' Hc'. destruct (Hforth c' Hc') as [tc' [_ Hcase']].
        unfold Smoke.testCase_of in Hcase'. rewrite Hon in Hcase'.
        unfold has.
        destruct (lookup (Number_toString c') responses); [reflexivity|].
        discriminate.
Qed.

End PlanningAgain.

(** ** Headers *)

Section HeadersMore.
Context {E : External}.

(** X12: the headers of a request always carry [Content-Type], set after
    the security headers: it is the first entry of the method's
    [consumes], or [application/json] when the method declares none, and
    it replaces a [Content-Type] that the security handler supplied.
    With no security handler registered the headers are that one header,
    whatever security the method declares.  So it is in both engines. *)
Theorem Content_Type_is_set_last (s : SwaggerSmoke) (m : MethodMeta)
  (template method : string) (caseStatusCode : Z) :
  let contentType :=
    match consumes m with
    | Some (first :: _) => VStr first
    | Some [] => VUndefined
    | None => VStr "application/json"
    end in
  (forall headers,
      Smoke._getRequestHeaders s m template method caseStatusCode = Ok headers ->
      lookup "Content-Type" headers = Some contentType)
  /\ (forall headers,
         LibIndex._getRequestHeaders s m template method = Ok headers ->
         lookup "Content-Type" headers = Some contentType)
  /\ (_security s = [] ->
      Smoke._getRequestHeaders s m template method caseStatusCode
      = Ok [("Content-Type", contentType)]
      /\ LibIndex._getRequestHeaders s m template method
         = Ok [("Content-Type", contentType)]).
Proof.
  cbv zeta. split; [|split].
  - intros headers H. unfold Smoke._getRequestHeaders in H.
    destruct (Smoke._setSecurityHeader _ _ _ _ _ _) as [h|e]; simpl in H;
      [|discriminate].
    injection H as <-. unfold Smoke._setContentType. apply lookup_assoc_set_eq.
  - intros headers H. unfold LibIndex._getRequestHeaders in H.
    destruct (LibIndex._setAuthorizationHeader _ _ _ _ _) as [h|e]; simpl in H;
      [|discriminate].
    injection H as <-. unfold LibIndex._setContentType. apply lookup_assoc_set_eq.
  - intros Hnone. split.
    + unfold Smoke._getRequestHeaders, Smoke._setSecurityHeader.
      rewrite Hnone. reflexivity.
    + unfold LibIndex._getRequestHeaders, LibIndex._setAuthorizationHeader.
      rewrite Hnone.
      destruct (security m) as [[|? ?]|];
        destruct (forceAuthorizationHeader (options s)); reflexivity.
Qed.

Lemma find_skips (f : string -> bool) (before after : list string) (k : string) :
  (forall k', In k' before -> f k' = false) -> f k = true ->
  find f (before ++ k :: after) = Some k.
Proof.
  intros Hbefore Hk. induction before as [|b before IH]; simpl.
  - now rewrite Hk.
  - rewrite (Hbefore b (or_introl eq_refl)). apply IH.
    intros k' Hin. apply Hbefore. now right.
Qed.

(** X13: when the first requirement of a method names several registered
    schemes, the handler used is the one registered first among them,
    in the order of registration and not in the order in which the
    requirement lists them; it is called with what the requirement gives
    for that scheme.  The later requirements play no part. *)
Theorem scheme_by_registration_order (s : SwaggerSmoke)
  (first : SecurityRequirement) (later : list SecurityRequirement)
  (before after : list string) (k : string) :
  _securityKeys s = (before ++ k :: after)%list ->
  (forall k', In k' before -> has k' first = false) ->
  has k first = true ->
  Smoke.select_middleware s (Some (first :: later))
  = Some (lookup k (_security s),
          match lookup k first with
          | Some scopes => scopes
          | None => VUndefined
          end).
Proof.
  intros Hkeys Hbefore Hk. unfold Smoke.select_middleware.
  rewrite Hkeys.
  now rewrite (find_skips (fun middlewareKey => has middlewareKey first)
                 before after k Hbefore Hk).
Qed.

End HeadersMore.

(** ** URLs and bodies *)

Section UrlsAndBodies.
Context {E : External}.

Lemma append_assoc (a b c : string) : (a ++ b) ++ c = a ++ b ++ c.
Proof. induction a as [|x a IH]; simpl; [reflexivity|now rewrite IH]. Qed.

Lemma strip_prefix_app (p s x : string) (rest : string) :
  strip_prefix p s = Some rest -> strip_prefix p (s ++ x) = Some (rest ++ x).
Proof.
  revert s. induction p as [|a p IH]; intros s H; simpl in *.
  - now injection H as <-.
  - destruct s as [|b s]; [discriminate|]. simpl.
    destruct (Ascii.eqb a b); [now apply IH|discriminate].
Qed.

Lemma strip_prefix_self (p b : string) : strip_prefix p (p ++ b) = Some b.
Proof.
  induction p as [|a p IH]; simpl; [reflexivity|].
  now rewrite Ascii.eqb_refl.
Qed.

Lemma split_at_unfold (p s : string) :
  split_at p s =
  match strip_prefix p s with
  | Some rest => Some (EmptyString, rest)
  | None =>
      match s with
      | String c s' =>
          match split_at p s' with
          | Some (b, a) => Some (String c b, a)
          | None => None
          end
      | EmptyString => None
      end
  end.
Proof. destruct s; reflexivity. Qed.

Lemma includes_middle (a p b : string) : includes (a ++ p ++ b) p = true.
Proof.
  unfold includes. induction a as [|c a IH].
  - change ("" ++ p ++ b) with (p ++ b).
    now rewrite split_at_unfold, strip_prefix_self.
  - change (String c a ++ p ++ b) with (String c (a ++ p ++ b)).
    rewrite split_at_unfold.
    destruct (strip_prefix p (String c (a ++ p ++ b))); [reflexivity|].
    destruct (split_at p (a ++ p ++ b)) as [[? ?]|]; [reflexivity|discriminate].
Qed.

Lemma includes_append (t p x : string) :
  includes t p = true -> includes (t ++ x) p = true.
Proof.
  unfold includes. induction t as [|c t IH]; intros H.
  - rewrite split_at_unfold in H. rewrite split_at_unfold.
    destruct (strip_prefix p "") as [rest|] eqn:Hs; [|discriminate].
    now rewrite (strip_prefix_app p "" x rest Hs).
  - rewrite split_at_unfold in H. rewrite split_at_unfold.
    destruct (strip_prefix p (String c t)) as [rest|] eqn:Hs.
    + now rewrite (strip_prefix_app p (String c t) x rest Hs).
    + destruct (strip_prefix p (String c t ++ x)); [reflexivity|].
      simpl append. 
      destruct (split_at p t) as [[b a]|] eqn:Ht; [|discriminate].
      specialize (IH eq_refl).
      destruct (split_at p (t ++ x)) as [[? ?]|]; [reflexivity|discriminate].
Qed.

(** After the first query parameter every one is joined with [&]. *)
Lemma _buildUrl_params_more_queries (s : SwaggerSmoke)
  (method : string) (ps : list ParamSpec) (c : Z) (value : ParamSpec -> Value) :
  (forall p, In p ps -> param_in p = "query") ->
  (forall p t, In p ps ->
               Smoke.getParamValue s (param_name p) (param_type p) c
                 [VStr t; VStr method] = Ok (value p)) ->
  forall template,
    includes template "?" = true ->
    Smoke._buildUrl_params s template method ps c
    = Ok match ps with
         | [] => template
         | _ :: _ =>
             template ++ "&"
             ++ join "&" (map (fun p => param_name p ++ "="
                                        ++ toString (value p)) ps)
         end.
Proof.
  induction ps as [|p ps IH]; intros Hin Hval template Hq; [reflexivity|].
  cbn [Smoke._buildUrl_params].
  rewrite (Hin p (or_introl eq_refl)).
  change (String.eqb "query" "body") with false.
  change (String.eqb "query" "path") with false.
  change (String.eqb "query" "query") with true. cbv iota.
  rewrite (Hval p template (or_introl eq_refl)). cbn [bind]. rewrite Hq.
  rewrite IH.
  - destruct ps as [|p' ps]; [reflexivity|].
    cbn [map join]. f_equal.
    rewrite !append_assoc. reflexivity.
  - intros q Hq'. apply Hin. now right.
  - intros q t Hq'. apply Hval. now right.
  - now apply includes_append.
Qed.

(** X14: for a template without [?] and parameters that are all query
    parameters, the URL is the template, [?], and the [name=value] pairs
    in the declared order joined with [&]; each value is the text of what
    the parameter resolves to, so a parameter that resolves to
    [undefined] is not left out but written as [name=undefined]. *)
Theorem query_string_composition (s : SwaggerSmoke)
  (template method : string) (ps : list ParamSpec) (c : Z)
  (value : ParamSpec -> Value) :
  includes template "?" = false ->
  ps <> [] ->
  (forall p, In p ps -> param_in p = "query") ->
  (forall p t, In p ps ->
               Smoke.getParamValue s (param_name p) (param_type p) c
                 [VStr t; VStr method] = Ok (value p)) ->
  Smoke._buildUrl s template method (Some ps) c
  = Ok (template ++ "?"
        ++ join "&" (map (fun p => param_name p ++ "="
                                   ++ toString (value p)) ps)).
Proof.
  intros Hq Hne Hin Hval. destruct ps as [|p ps]; [contradiction|].
  unfold Smoke._buildUrl. cbn [Smoke._buildUrl_params].
  rewrite (Hin p (or_introl eq_refl)).
  change (String.eqb "query" "body") with false.
  change (String.eqb "query" "path") with false.
  change (String.eqb "query" "query") with true. cbv iota.
  rewrite (Hval p template (or_introl eq_refl)). cbn [bind]. rewrite Hq.
  rewrite (_buildUrl_params_more_queries s method ps c value).
  - destruct ps as [|p' ps]; [reflexivity|].
    cbn [map join]. f_equal. rewrite !append_assoc. reflexivity.
  - intros q Hq'. apply Hin. now right.
  - intros q t Hq'. apply Hval. now right.
  - apply (includes_middle template "?").
Qed.

(** X15: a body parameter plays no part in the URL: [_buildUrl] gives
    the same for the declared parameters and for the declared parameters
    without those of the body, in both engines, so no handler is asked
    for a body parameter there. *)
Theorem _buildUrl_skips_body (s : SwaggerSmoke) (template method : string)
  (ps : list ParamSpec) (c : Z) :
  let others := filter (fun p => negb (param_in p =? "body")%string) ps in
  Smoke._buildUrl s template method (Some ps) c
  = Smoke._buildUrl s template method (Some others) c
  /\ LibIndex._buildUrl s template method (Some ps)
     = LibIndex._buildUrl s template method (Some others).
Proof.
  cbv zeta. unfold Smoke._buildUrl, LibIndex._buildUrl. split.
  - revert template. induction ps as [|p ps IH]; intros template;
      [reflexivity|].
    cbn [filter Smoke._buildUrl_params].
    destruct (String.eqb (param_in p) "body") eqn:Hbody; cbn [negb];
      [apply IH|].
    cbn [Smoke._buildUrl_params]. rewrite Hbody.
    destruct (Smoke.getParamValue _ _ _ _ _) as [v|e]; [|reflexivity].
    cbn [bind].
    destruct (String.eqb (param_in p) "path"); [apply IH|].
    destruct (String.eqb (param_in p) "query"); apply IH.
  - revert template. induction ps as [|p ps IH]; intros template;
      [reflexivity|].
    cbn [filter LibIndex._buildUrl_params].
    destruct (String.eqb (param_in p) "body") eqn:Hbody; cbn [negb].
    + apply String.eqb_eq in Hbody. rewrite Hbody.
      change (String.eqb "body" "path") with false.
      change (String.eqb "body" "query") with false. apply IH.
    + cbn [LibIndex._buildUrl_params].
      destruct (String.eqb (param_in p) "path").
      * destruct (LibIndex.getParamValue _ _ _) as [v|e]; [|reflexivity].
        cbn [bind]. apply IH.
      * destruct (String.eqb (param_in p) "query"); [|apply IH].
        destruct (LibIndex.getParamValue _ _ _) as [v|e]; [|reflexivity].
        cbn [bind]. apply IH.
Qed.

Lemma setObjectParamValues_no_match (s : SwaggerSmoke) (fakeData : Value)
  (paramsKeys : list string) (template : string) (c : Z) :
  (forall key, In key paramsKeys ->
               jsonPath_paths fakeData ("$.." ++ key) = []) ->
  Smoke.setObjectParamValues s fakeData paramsKeys template c = Ok fakeData.
Proof.
  induction paramsKeys as [|key rest IH]; intros H; [reflexivity|].
  cbn [Smoke.setObjectParamValues]. unfold Smoke.setObjectParamValue.
  rewrite (H key (or_introl eq_refl)). cbn [bind].
  apply IH. intros k Hk. apply H. now right.
Qed.

Lemma lodash_uniq_In (seen xs : list string) (x : string) :
  In x (Smoke.lodash_uniq seen xs) -> In x xs.
Proof.
  revert seen. induction xs as [|y xs IH]; intros seen H; [exact H|].
  simpl in H. destruct (existsb (String.eqb y) seen).
  - right. exact (IH _ H).
  - destruct H as [<-|H]; [now left|right; exact (IH _ H)].
Qed.

(** X16: the body of a request with [setParamsInBody], for a body
    schema the generator resolves.  When the generated body holds no
    member named like a key of the dictionary or like a registered
    parameter, the body sent is the generated body as it is, and no
    value is resolved for it, also when a handler would throw.  When no
    dictionary was ever given, building the body throws a [TypeError],
    for every method that has a body parameter.  For a body schema the
    generator rejects, building the body rejects with the generator's
    error before any of this. *)
Theorem body_overlay_edges (s : SwaggerSmoke) (template : string)
  (ps : list ParamSpec) (c : Z) (bodyParam : ParamSpec) :
  find (fun param => (param_in param =? "body")%string) ps = Some bodyParam ->
  setParamsInBody (options s) = true ->
  let fakeData := fakeGenerator_resolve (param_schema bodyParam) in
  (fakeGenerator_rejects (param_schema bodyParam) = None ->
   (forall dictionary,
       _staticParams s = Some dictionary ->
       (forall key,
           In key (getOwnPropertyNames dictionary ++ _requestParamsKeys s)%list ->
           jsonPath_paths fakeData ("$.." ++ key) = []) ->
       Smoke._buildRequestBody s template (Some ps) c = Ok fakeData)
   /\ (_staticParams s = None ->
       exists msg,
         Smoke._buildRequestBody s template (Some ps) c
         = Throw (TypeError msg)))
  /\ (forall error,
         fakeGenerator_rejects (param_schema bodyParam) = Some error ->
         Smoke._buildRequestBody s template (Some ps) c = Throw error).
Proof.
  intros Hfind Hoverlay fakeData. unfold Smoke._buildRequestBody.
  rewrite Hfind. unfold fakeGenerator_resolved. split.
  - intros Hgen. rewrite Hgen. cbn [bind]. rewrite Hoverlay. split.
    + intros dictionary Hd Hnone. rewrite Hd.
      apply setObjectParamValues_no_match.
      intros key Hkey. apply Hnone.
      unfold Smoke.lodash_union in Hkey. exact (lodash_uniq_In _ _ _ Hkey).
    + intros ->. eexists. reflexivity.
  - intros error Hgen. now rewrite Hgen.
Qed.

(** X23: a declared parameter that is not the body, has no handler and
    no dictionary entry, and whose declared type the generator rejects
    (a form field of Swagger's type [file]): at every target status code
    but 400 building the URL rejects with the generator's error, though
    the value of a form field would go neither into the path nor into
    the query string, and so the test case rejects before anything is
    registered, sent, counted or printed.  At 400 the same parameter
    resolves, to a value of the mismatched type. *)
Theorem _buildUrl_unknown_type (s : SwaggerSmoke) (template method : string)
  (param : ParamSpec) (rest : list ParamSpec) (error : Exn) :
  (param_in param =? "body")%string = false ->
  lookup (param_name param) (_requestParams s) = None ->
  (forall dictionary,
      _staticParams s = Some dictionary ->
      lookup (param_name param) dictionary = None) ->
  truthy (param_type param) = true ->
  fakeGenerator_rejects (VObj [("type", param_type param)]) = Some error ->
  (forall statusCode,
      statusCode <> 400 ->
      Smoke._buildUrl s template method (Some (param :: rest)) statusCode
      = Throw error)
  /\ (forall m testCase,
         parameters m = Some (param :: rest) ->
         code testCase <> 400 ->
         Smoke._testCase method template m testCase s = (Throw error, s))
  /\ Smoke.getParamValue s (param_name param) (param_type param) 400
       [VStr template; VStr method]
     = Ok (fakeGenerator_resolve
             (VObj [("type", Smoke.mismatched_type (param_type param))])).
Proof.
  intros Hin Hh Hs Ht Hgen.
  assert (Hurl : forall statusCode,
             statusCode <> 400 ->
             Smoke._buildUrl s template method (Some (param :: rest)) statusCode
             = Throw error).
  { intros statusCode Hcode. unfold Smoke._buildUrl.
    cbn [Smoke._buildUrl_params]. rewrite Hin.
    rewrite (getParamValue_fallthrough _ _ _ _ _ Hh Hs), Ht.
    unfold Smoke._generateErrorParam. rewrite Ht.
    apply Z.eqb_neq in Hcode. rewrite Hcode. cbv zeta.
    now rewrite (fakeGenerator_resolved_Throw _ _ Hgen). }
  split; [exact Hurl|]. split.
  - intros m testCase Hm Hcode.
    unfold Smoke._testCase, bindM, read. rewrite Hm.
    now rewrite (Hurl _ Hcode).
  - rewrite (getParamValue_fallthrough _ _ _ _ _ Hh Hs), Ht.
    unfold Smoke._generateErrorParam. rewrite Ht. cbn [Z.eqb Pos.eqb].
    apply mismatched_type_generated.
Qed.

End UrlsAndBodies.

(** ** The factory and the registry *)

Section FactoryAndRegistry.
Context {E : External}.


Lemma keys_assoc_set_present {A} (k : string) (v : A) (l : list (string * A)) :
  has k l = true -> keys (assoc_set k v l) = keys l.
Proof.
  unfold has. induction l as [|[k0 v0] l IH]; simpl; [discriminate|].
  destruct (String.eqb k k0) eqn:Hk; intros H; simpl.
  - apply String.eqb_eq in Hk. now subst.
  - f_equal. fold (keys (assoc_set k v l)). fold (keys l). now apply IH.
Qed.

Lemma keys_assoc_set_absent {A} (k : string) (v : A) (l : list (string * A)) :
  has k l = false -> keys (assoc_set k v l) = (keys l ++ [k])%list.
Proof.
  unfold has. induction l as [|[k0 v0] l IH]; simpl; [reflexivity|].
  destruct (String.eqb k k0) eqn:Hk; intros H; simpl; [discriminate|].
  f_equal. fold (keys (assoc_set k v l)). fold (keys l). now apply IH.
Qed.

(** X18: registering a security handler.  The handler found under the
    name is the one registered last, the handlers under the other names
    are what they were, a name registered again keeps its place in the
    order of registration (so the handler that is first for
    [forceAuthorizationHeader] stays the first), and a new name goes
    last.  Counters, parameters and contract are not touched. *)
Theorem security_last_write_wins (s : SwaggerSmoke) (key : string)
  (handler : Handler) :
  let s' := SwaggerSmoke_security key handler s in
  lookup key (_security s') = Some handler
  /\ (forall k, k <> key -> lookup k (_security s') = lookup k (_security s))
  /\ (has key (_security s) = true ->
      keys (_security s') = keys (_security s))
  /\ (has key (_security s) = false ->
      keys (_security s') = (keys (_security s) ++ [key])%list)
  /\ _requestParams s' = _requestParams s
  /\ _staticParams s' = _staticParams s
  /\ _testFails s' = _testFails s
  /\ _testPasses s' = _testPasses s.
Proof.
  cbv zeta. cbn [SwaggerSmoke_security _security _requestParams _staticParams
                   _testFails _testPasses].
  split; [apply lookup_assoc_set_eq|].
  split; [intros k Hk; apply lookup_assoc_set_ne; congruence|].
  split; [apply keys_assoc_set_present|].
  split; [apply keys_assoc_set_absent|].
  repeat split.
Qed.

(** X19: a handler registered for a parameter name decides the value of
    that name in both engines, whether the dictionary was given before
    or after it and whatever the dictionary holds for the name; the
    names without a handler are resolved as before the registration. *)
Theorem params_handler_over_dictionary (s : SwaggerSmoke) (key : string)
  (handler : Handler) (dictionary : list (string * Value))
  (type : Value) (statusCode : Z) (args : list Value) :
  let before := SwaggerSmoke_params key handler
                  (SwaggerSmoke_params_static dictionary s) in
  let after := SwaggerSmoke_params_static dictionary
                 (SwaggerSmoke_params key handler s) in
  Smoke.getParamValue before key type statusCode args = handler args
  /\ Smoke.getParamValue after key type statusCode args = handler args
  /\ LibIndex.getParamValue before key args = handler args
  /\ LibIndex.getParamValue after key args = handler args
  /\ (forall k,
         k <> key ->
         Smoke.getParamValue before k type statusCode args
         = Smoke.getParamValue (SwaggerSmoke_params_static dictionary s) k
             type statusCode args
         /\ Smoke.getParamValue after k type statusCode args
            = Smoke.getParamValue (SwaggerSmoke_params_static dictionary s) k
                type statusCode args).
Proof.
  cbv zeta.
  unfold Smoke.getParamValue, LibIndex.getParamValue, Smoke._call,
    LibIndex._call.
  cbn [SwaggerSmoke_params SwaggerSmoke_params_static _requestParams
         _staticParams].
  rewrite !lookup_assoc_set_eq. repeat split.
  - rewrite lookup_assoc_set_ne by congruence. reflexivity.
  - rewrite lookup_assoc_set_ne by congruence. reflexivity.
Qed.

End FactoryAndRegistry.

(** ** The further properties on the sample environment *)

Section OnSampleMore.
#[local] Existing Instance Sample.external.

(** The 200 case of the widgets is answered with 404: one fail, and the
    promise rejects. *)
Lemma _testCase_rejected_witness :
  let s := Sample.listening Sample.plain_engine in
  let testCase := {| code := 200;
                     metadata := Some {| schema := Sample.named_schema |} |} in
  exists s',
    Smoke._testCase "get" "/widgets/{id}" Sample.widgets_get testCase s
    = (Throw (Error "expected 200, got 404"), s')
    /\ _testFails s' = _testFails s + 1
    /\ _testPasses s' = _testPasses s.
Proof.
  exact (_testCase_rejected "get" "/widgets/{id}" Sample.widgets_get
           {| code := 200;
              metadata := Some {| schema := Sample.named_schema |} |}
           (Sample.listening Sample.plain_engine)
           "/widgets/lorem" [("Content-Type", VStr "application/json")]
           VUndefined Sample.app (Error "expected 200, got 404")
           eq_refl eq_refl eq_refl eq_refl eq_refl eq_refl eq_refl).
Defined.

(** A new engine with a handler and a dictionary: its run ends at the
    first test case, with no verdict. *)
Lemma runTests_gives_no_verdict_witness :
  let r := Smoke.runTests Sample.provided_engine in
  fst r = Throw (TypeError "The listener argument must be of type function")
  /\ _globalReject (snd r) = false
  /\ _testFails (snd r) = 0
  /\ _testPasses (snd r) = 0
  /\ reds (console (snd r)) = 0
  /\ greens (console (snd r)) = 0.
Proof.
  destruct (proj2 (proj2 (proj2 runTests_gives_no_verdict))
              Sample.provided_engine eq_refl) as [H1 [H2 [H3 [H4 [H5 _]]]]].
  split; [reflexivity|].
  split; [exact H1|]. split; [exact H2|]. split; [exact H3|].
  split; [exact H4|exact H5].
Defined.


(** The widgets with the strict options: the two test cases, and the
    200 case as the rewritten responses hold it. *)
Lemma planning_again_witness :
  let written :=
    Smoke.force_responses Sample.strict_engine
      (responses Sample.widgets_get) in
  keys written = ["200"; "404"]
  /\ Smoke._getGetMethodTestCases Sample.strict_engine written
     = Smoke._getGetMethodTestCases Sample.strict_engine
         (responses Sample.widgets_get)
  /\ lookup "200" written
     = Some {| schema :=
                 VObj [("type", VStr "object");
                       ("properties",
                        VObj [("name", VObj [("type", VStr "string")])]);
                       ("required", VArr [VStr "name"])] |}.
Proof.
  destruct (planning_again Sample.strict_engine
              (responses Sample.widgets_get) eq_refl)
    as [Hkeys [Hplan Hheld]].
  split; [exact Hkeys|]. split; [exact Hplan|].
  refine (Hheld _ {| code := 200; metadata := Some _ |} _ eq_refl _ eq_refl).
  left. reflexivity.
Defined.

(** An upload with a form field of the type [file]: the 200 case is over
    before it is sent; the 400 case gets a string for the field. *)
Lemma _buildUrl_unknown_type_witness :
  Smoke._buildUrl Sample.plain_engine "/upload" "post"
    (Some Sample.upload_params) 200
  = Throw (Error "unknown primitive file")
  /\ Smoke.getParamValue Sample.plain_engine "document" (VStr "file") 400
       [VStr "/upload"; VStr "post"]
     = Ok (VStr "lorem").
Proof.
  assert (Hno : forall dictionary : list (string * Value),
             _staticParams Sample.plain_engine = Some dictionary ->
             lookup "document" dictionary = None)
    by (intros dictionary H; discriminate H).
  destruct (@_buildUrl_unknown_type Sample.external
              Sample.plain_engine "/upload" "post"
              {| param_name := "document"; param_in := "formData";
                 param_type := VStr "file"; param_schema := VUndefined |}
              [] (Error "unknown primitive file")
              eq_refl eq_refl Hno eq_refl eq_refl) as [Hurl [_ H400]].
  split; [apply Hurl; discriminate|exact H400].
Defined.

(** The same request in [lib/index.js]: the promise resolves. *)
Lemma LibIndex__testMethod_resolves_witness :
  let r := LibIndex._testMethod "/widgets/{id}" "get" Sample.widgets_get
             Sample.plain_engine in
  fst r = Ok tt
  /\ (disabled Sample.plain_engine "get" "/widgets/{id}" = false ->
      _testFails Sample.plain_engine + _testPasses Sample.plain_engine + 1
      <= _testFails (snd r) + _testPasses (snd r)).
Proof.
  exact (LibIndex__testMethod_resolves "/widgets/{id}" "get"
           Sample.widgets_get Sample.plain_engine
           "/widgets/undefined" VUndefined
           [("Content-Type", VStr "application/json")] Sample.app
           eq_refl eq_refl eq_refl eq_refl).
Defined.

Lemma runTests_all_disabled_witness :
  let s := new_SwaggerSmoke Sample.widgets_api Sample.all_disabled in
  let r := Smoke.runTests s in
  fst r = Ok {| fails := _testFails s; passes := _testPasses s |}
  /\ _testFails (snd r) = _testFails s
  /\ _testPasses (snd r) = _testPasses s
  /\ _globalReject (snd r) = _globalReject s
  /\ reds (console (snd r)) = reds (console s)
  /\ greens (console (snd r)) = greens (console s).
Proof.
  refine (runTests_all_disabled
            (new_SwaggerSmoke Sample.widgets_api Sample.all_disabled) _).
  intros endpoint entry [<-|[<-|[]]] Hentry; simpl in Hentry;
    destruct Hentry as [<-|[]]; reflexivity.
Defined.

Lemma planner_never_empty_witness :
  let testCases :=
    [ {| code := 200; metadata := Some {| schema := Sample.named_schema |} |};
      {| code := 404; metadata := Some {| schema := VUndefined |} |} ] in
  testCases <> []
  /\ ((forall testCase,
          In testCase testCases ->
          code testCase < 500
          /\ exists key,
               In key (getOwnPropertyNames (responses Sample.widgets_get))
               /\ parseInt key = Some (code testCase))
      \/ (exists default,
             testCases = [ {| code := default; metadata := None |} ]
             /\ forall key c,
                  In key (getOwnPropertyNames (responses Sample.widgets_get)) ->
                  parseInt key = Some c -> 500 <= c)).
Proof.
  exact (planner_never_empty Sample.plain_engine
           (responses Sample.widgets_get) _ eq_refl).
Defined.


(** The handler supplies a [Content-Type]; the request has the one of
    the method. *)
Lemma Content_Type_is_set_last_witness :
  exists headers,
    Smoke._getRequestHeaders (Sample.secured_engine Sample.custom_headers)
      Sample.secured_get "/secured" "get" 200 = Ok headers
    /\ lookup "Authorization" headers = Some (VStr "Basic abc")
    /\ lookup "Content-Type" headers = Some (VStr "application/json").
Proof.
  eexists. split; [reflexivity|]. split; [reflexivity|].
  exact (proj1 (Content_Type_is_set_last
                  (Sample.secured_engine Sample.custom_headers)
                  Sample.secured_get "/secured" "get" 200) _ eq_refl).
Defined.

(** [api_key] was registered before [token_auth]: it is the scheme used
    for a requirement that lists [token_auth] first. *)
Lemma scheme_by_registration_order_witness :
  Smoke.select_middleware Sample.two_schemes_engine
    (Some [Sample.both_schemes])
  = Some (Some Sample.custom_headers, VArr [VStr "k"]).
Proof.
  refine (scheme_by_registration_order Sample.two_schemes_engine
            Sample.both_schemes [] [] ["token_auth"] "api_key" eq_refl _ eq_refl).
  intros k' [].
Defined.

Lemma query_string_composition_witness :
  Smoke._buildUrl Sample.provided_engine "/widgets" "get"
    (Some Sample.search_params) 200
  = Ok "/widgets?limit=10&q=lorem".
Proof.
  refine (query_string_composition Sample.provided_engine "/widgets" "get"
            Sample.search_params 200
            (fun p => if (param_name p =? "limit")%string
                      then VNum 10 else VStr "lorem")
            eq_refl _ _ _).
  - discriminate.
  - intros p [<-|[<-|[]]]; reflexivity.
  - intros p t [<-|[<-|[]]]; reflexivity.
Defined.

(** The generated body is an empty object: nothing in it is named like a
    parameter, and the handler, which would throw, is not asked.  A body
    declared with the type [file] is not generated. *)
Lemma body_overlay_edges_witness :
  Smoke._buildRequestBody Sample.overlay_engine "/widgets"
    (parameters Sample.create_post) 201 = Ok (VObj [])
  /\ (exists msg,
         Smoke._buildRequestBody
           (new_SwaggerSmoke Sample.widgets_api Sample.overlay_options)
           "/widgets" (parameters Sample.create_post) 201
         = Throw (TypeError msg))
  /\ Smoke._buildRequestBody Sample.overlay_engine "/upload"
       (Some [ {| param_name := "document"; param_in := "body";
                  param_type := VUndefined;
                  param_schema := VObj [("type", VStr "file")] |} ]) 201
     = Throw (Error "unknown primitive file").
Proof.
  split; [|split].
  - refine (proj1 (proj1 (body_overlay_edges Sample.overlay_engine "/widgets"
                            [ {| param_name := "widget"; param_in := "body";
                                 param_type := VUndefined;
                                 param_schema :=
                                   VObj [("type", VStr "object")] |} ]
                            201 _ eq_refl eq_refl) eq_refl)
              [("limit", VNum 10)] eq_refl _).
    intros key Hkey. reflexivity.
  - exact (proj2 (proj1 (body_overlay_edges
                           (new_SwaggerSmoke Sample.widgets_api
                              Sample.overlay_options)
                           "/widgets"
                           [ {| param_name := "widget"; param_in := "body";
                                param_type := VUndefined;
                                param_schema :=
                                  VObj [("type", VStr "object")] |} ]
                           201 _ eq_refl eq_refl) eq_refl) eq_refl).
  - exact (proj2 (body_overlay_edges Sample.overlay_engine "/upload"
                    [ {| param_name := "document"; param_in := "body";
                         param_type := VUndefined;
                         param_schema := VObj [("type", VStr "file")] |} ]
                    201 _ eq_refl eq_refl)
             (Error "unknown primitive file") eq_refl).
Defined.


Lemma security_last_write_wins_witness :
  keys (_security (SwaggerSmoke_security "api_key" Sample.bearer
                     Sample.two_schemes_engine))
  = ["api_key"; "token_auth"]
  /\ lookup "api_key"
       (_security (SwaggerSmoke_security "api_key" Sample.bearer
                     Sample.two_schemes_engine))
     = Some Sample.bearer.
Proof.
  pose proof (security_last_write_wins Sample.two_schemes_engine "api_key"
                Sample.bearer) as [Hlookup [_ [Hkeys _]]].
  split; [exact (Hkeys eq_refl)|exact Hlookup].
Defined.

(** The dictionary has a value for [id] too; the handler decides. *)
Lemma params_handler_over_dictionary_witness :
  Smoke.getParamValue
    (SwaggerSmoke_params_static [("id", VStr "7")]
       (SwaggerSmoke_params "id" (fun _ => Ok (VStr "42")) Sample.plain_engine))
    "id" (VStr "string") 200 [VStr "/widgets/{id}"; VStr "get"]
  = Ok (VStr "42").
Proof.
  exact (proj1 (proj2 (params_handler_over_dictionary Sample.plain_engine "id"
                         (fun _ => Ok (VStr "42")) [("id", VStr "7")]
                         (VStr "string") 200
                         [VStr "/widgets/{id}"; VStr "get"]))).
Defined.

End OnSampleMore.
